(** * make_shorts_cli.py: scene selection, fallback segmentation and rendering

    A shallow embedding of [make_shorts_cli.py].  Python integers are [Z],
    Python floats are Rocq's primitive binary64 floats, exceptions are an
    explicit result type, and the external programs (ffprobe, ffmpeg) and
    the Python built-ins whose text is not part of the script ([bytes.decode],
    [str.strip], [float], [os.path.abspath]) are section variables. *)

From Stdlib Require Import ZArith Lia Ascii String List DecimalString DecimalNat.
From Stdlib.Strings Require Import Byte.
From Stdlib Require Import Floats.PrimFloat Floats.SpecFloat Floats.FloatOps
  Floats.FloatAxioms.
From stdpp Require Import base list strings gmap sorting.

Local Open Scope string_scope.
Local Open Scope list_scope.
Local Open Scope Z_scope.

(** ** Python run-time values and exceptions *)

Module Py.

(** The exceptions that the modelled code can meet.  [KeyboardInterrupt]
    derives from [BaseException] only; the others derive from
    [Exception]. *)
Inductive exn : Type :=
| CalledProcessError (returncode : Z) (cmd : list string)
| OSError
| UnicodeDecodeError
| ValueError
| OverflowError
| KeyboardInterrupt.

Definition is_Exception (e : exn) : bool :=
  match e with
  | KeyboardInterrupt => false
  | _ => true
  end.

Inductive result (A : Type) : Type :=
| Ok (a : A)
| Raise (e : exn).
Arguments Ok {A} a.
Arguments Raise {A} e.

Definition rbind {A B} (r : result A) (k : A -> result B) : result B :=
  match r with
  | Ok a => k a
  | Raise e => Raise e
  end.

(** [try: body / except Exception: handler] *)
Definition try_except_Exception {A} (body handler : result A) : result A :=
  match body with
  | Ok a => Ok a
  | Raise e => if is_Exception e then handler else Raise e
  end.

Definition of_option {A} (e : exn) (o : option A) : result A :=
  match o with
  | Some a => Ok a
  | None => Raise e
  end.

(** [int(x)] on a float: truncation toward zero; [ValueError] on a NaN,
    [OverflowError] on an infinity. *)
Definition int_of_float (f : float) : result Z :=
  match Prim2SF f with
  | S754_zero _ => Ok 0
  | S754_infinity _ => Raise OverflowError
  | S754_nan => Raise ValueError
  | S754_finite s m e =>
      let v := Z.shiftl (Z.pos m) e in
      Ok (if s then - v else v)
  end.

(** [str(n)] on an int. *)
Definition str_of_int (n : Z) : string :=
  NilZero.string_of_int (Z.to_int n).

(** [range(n)]: empty when [n <= 0]. *)
Definition range (n : Z) : list Z :=
  map Z.of_nat (seq 0 (Z.to_nat n)).

(** [enumerate(l)], counting from [start]. *)
Fixpoint enumerate_from {A} (start : nat) (l : list A) : list (nat * A) :=
  match l with
  | [] => []
  | x :: l' => (start, x) :: enumerate_from (S start) l'
  end.

Definition enumerate {A} (l : list A) : list (nat * A) :=
  enumerate_from 0 l.

(** [l[:n]]: a negative [n] counts from the end, and the stop index is
    clamped to [0 .. len(l)]. *)
Definition slice_stop (len : nat) (n : Z) : nat :=
  if n <? 0 then Z.to_nat (Z.max 0 (Z.of_nat len + n))
  else Z.to_nat (Z.min n (Z.of_nat len)).

Definition slice_to {A} (l : list A) (n : Z) : list A :=
  take (slice_stop (length l) n) l.

(** [format(n, "02d")] for a natural number: decimal digits, padded with
    zeros on the left up to [width] characters. *)
Definition zfill (width : nat) (s : string) : string :=
  String.concat "" (replicate (width - String.length s)%nat "0") +:+ s.

Definition format_02d (n : nat) : string :=
  zfill 2 (NilEmpty.string_of_uint (Nat.to_uint n)).

(** [print(a, b, ...)]: the text written, arguments separated by a blank. *)
Definition print_text (args : list string) : string :=
  String.concat " " args.

(** [os.path.join(a, b)] on POSIX for a relative [b] and an [a] that does
    not end in a slash. *)
Definition path_join (a b : string) : string := a +:+ "/" +:+ b.

(** *** [sorted(l, key=..., reverse=...)]

    Python's sort is stable and compares keys with [<] only.  With
    [reverse=True] the list is reversed, sorted, and reversed again, which
    keeps elements with equal keys in their original order. *)
Section Sorted.
Context {A K : Type} (lt : K -> K -> bool) (key : A -> K).

Fixpoint insert_stable (x : A) (l : list A) : list A :=
  match l with
  | [] => [x]
  | y :: l' =>
      if lt (key y) (key x) then y :: insert_stable x l' else x :: l
  end.

Definition stable_sort (l : list A) : list A :=
  foldr insert_stable [] l.

Definition sorted (rev : bool) (l : list A) : list A :=
  if rev then reverse (stable_sort (reverse l)) else stable_sort l.

(** [x] may stand before [y] in ascending key order: [y]'s key is not
    smaller. *)
Definition key_le (x y : A) : Prop := lt (key y) (key x) = false.
End Sorted.

End Py.

Import Py.

(** ** The numbers that stand for seconds

    Scene boundaries are floats when they come from the detector and ints
    when they come from the fallback.  The script uses three operations on
    them: subtraction and [<] on the differences (the sort key and its
    comparison), and [int(...)].  [sec_ge] is Python's [>=] on the
    differences, in which the order of the selection is stated. *)

Class Seconds (T : Type) : Type := {
  sec_diff : Type;
  sec_sub : T -> T -> sec_diff;
  sec_lt : sec_diff -> sec_diff -> bool;
  sec_ge : sec_diff -> sec_diff -> bool;
  sec_int : T -> result Z;
}.

#[export] Instance Z_Seconds : Seconds Z := {
  sec_diff := Z;
  sec_sub := Z.sub;
  sec_lt := Z.ltb;
  sec_ge := Z.geb;
  sec_int := Ok;
}.

(** Any float, NaN and the infinities included. *)
#[export] Instance float_Seconds : Seconds float := {
  sec_diff := float;
  sec_sub := PrimFloat.sub;
  sec_lt := PrimFloat.ltb;
  sec_ge := fun a b => PrimFloat.leb b a;
  sec_int := int_of_float;
}.

(** The floats that are times: neither NaN nor infinite.  Their differences
    are plain floats (a difference may overflow to an infinity). *)
Definition finite_float : Type := { f : float | is_finite f = true }.

#[export] Instance finite_float_Seconds : Seconds finite_float := {
  sec_diff := float;
  sec_sub := fun a b => PrimFloat.sub (proj1_sig a) (proj1_sig b);
  sec_lt := PrimFloat.ltb;
  sec_ge := fun a b => PrimFloat.leb b a;
  sec_int := fun a => int_of_float (proj1_sig a);
}.

(** Two keys that the sort cannot tell apart. *)
Definition sec_same `{Seconds T} (a b : sec_diff) : bool :=
  negb (sec_lt a b) && negb (sec_lt b a).

(** ** Pick Top Scenes *)

Definition scene_key `{Seconds T} (s : T * T) : sec_diff :=
  sec_sub (snd s) (fst s).

Definition pick_top_scenes `{Seconds T} (scenes : list (T * T)) (n : Z)
  : list (T * T) :=
  match scenes with
  | [] => []
  | _ =>
      let scenes_sorted := sorted sec_lt scene_key true scenes in
      slice_to scenes_sorted n
  end.

(** On the lengths of intervals the comparison is a strict weak order, and
    [>=] is its complement.  On such keys every stable sort gives the same
    list, which is what lets an insertion sort stand for Python's. *)
Class SecondsOrder (T : Type) `{Seconds T} : Prop := {
  sec_lt_irrefl : forall s : T * T,
    sec_lt (scene_key s) (scene_key s) = false;
  sec_lt_trans : forall s1 s2 s3 : T * T,
    sec_lt (scene_key s1) (scene_key s2) = true ->
    sec_lt (scene_key s2) (scene_key s3) = true ->
    sec_lt (scene_key s1) (scene_key s3) = true;
  sec_lt_negtrans : forall s1 s2 s3 : T * T,
    sec_lt (scene_key s1) (scene_key s2) = false ->
    sec_lt (scene_key s2) (scene_key s3) = false ->
    sec_lt (scene_key s1) (scene_key s3) = false;
  sec_ge_not_lt : forall s1 s2 : T * T,
    sec_ge (scene_key s1) (scene_key s2)
    = negb (sec_lt (scene_key s1) (scene_key s2));
}.

(** ** External collaborators *)

(** What starting a child process and waiting for it gives: an exit status
    with the captured output, or a failure to start it at all. *)
Inductive spawn_result (O : Type) : Type :=
| Exited (returncode : Z) (stdout stderr : O)
| SpawnFailed.
Arguments Exited {O} returncode stdout stderr.
Arguments SpawnFailed {O}.

(** [subprocess.check_output(cmd)] *)
Definition check_output {O} (cmd : list string) (r : spawn_result O)
  : result O :=
  match r with
  | Exited rc out _ =>
      if bool_decide (rc = 0) then Ok out else Raise (CalledProcessError rc cmd)
  | SpawnFailed => Raise OSError
  end.

(** ** Fallback Sequential Scenes *)

Section Fallback.
(** ffprobe as a child process, and the built-ins applied to its output. *)
Variable run_ffprobe : list string -> spawn_result (list byte).
Variable bytes_decode : list byte -> option string.
Variable str_strip : string -> string.
Variable float_of_str : string -> option float.

Definition ffprobe_cmd (path : string) : list string :=
  ["ffprobe"; "-v"; "error";
   "-select_streams"; "v:0";
   "-show_entries"; "format=duration";
   "-of"; "default=noprint_wrappers=1:nokey=1";
   path].

Definition get_video_length_seconds (path : string) : result float :=
  try_except_Exception
    (rbind (check_output (ffprobe_cmd path) (run_ffprobe (ffprobe_cmd path)))
       (fun raw =>
          rbind (of_option UnicodeDecodeError (bytes_decode raw))
            (fun text =>
               let out := str_strip text in
               of_option ValueError (float_of_str out))))
    (Ok PrimFloat.zero).

Definition make_sequential_scenes (video_path : string) (n clip_len : Z)
  : result (list (Z * Z)) :=
  rbind (get_video_length_seconds video_path) (fun seconds =>
  rbind (int_of_float seconds) (fun total =>
    let starts := map (fun i => i * clip_len) (range n) in
    let scenes := map (fun s => (s, Z.min (s + clip_len) total)) starts in
    Ok scenes)).
End Fallback.

(** ** Create Short via FFmpeg *)

(** What the script can change or show: the lines printed, the child
    processes started (in order, by command line), and the files on disk.
    The script itself never writes, renames or deletes a file; the disk
    changes only through the encoder. *)
Record world : Type := World {
  printed : list string;
  spawned : list (list string);
  disk : gmap string (list byte);
}.

(** The world after an attempt to start [cmd] that ended in [r]: a process
    that was started is on the record and has left the disk as [d]; where
    none could be started, nothing has changed. *)
Definition after_spawn {O} (cmd : list string) (r : spawn_result O)
    (d : gmap string (list byte)) (w : world) : world :=
  match r with
  | Exited _ _ _ =>
      {| printed := printed w; spawned := spawned w ++ [cmd]; disk := d |}
  | SpawnFailed => w
  end.

(** What that attempt adds to the record of the processes started. *)
Definition started {O} (cmd : list string) (r : spawn_result O)
  : list (list string) :=
  match r with
  | Exited _ _ _ => [cmd]
  | SpawnFailed => []
  end.

(** Statements that print, start processes and may raise. *)
Definition M (A : Type) : Type := world -> result A * world.

Definition ret {A} (a : A) : M A := fun w => (Ok a, w).

Definition raise {A} (e : exn) : M A := fun w => (Raise e, w).

Definition bind {A B} (m : M A) (k : A -> M B) : M B :=
  fun w =>
    match m w with
    | (Ok a, w') => k a w'
    | (Raise e, w') => (Raise e, w')
    end.

Definition lift {A} (r : result A) : M A := fun w => (r, w).

Notation "x <- m ;; k" := (bind m (fun x => k))
  (at level 100, m at next level, right associativity).
Notation "m ;; k" := (bind m (fun _ => k))
  (at level 100, right associativity).

Definition print (args : list string) : M unit :=
  fun w =>
    (Ok tt, {| printed := printed w ++ [print_text args];
               spawned := spawned w;
               disk := disk w |}).

(** [for x in l: body(x)] *)
Fixpoint for_each {A} (l : list A) (body : A -> M unit) : M unit :=
  match l with
  | [] => ret tt
  | x :: l' => body x ;; for_each l' body
  end.

Record CompletedProcess : Type := {
  returncode : Z;
  stdout : string;
  stderr : string;
}.

Definition FFMPEG : string := "ffmpeg".

Definition newline : string := String (ascii_of_nat 10) EmptyString.

Section Render.
(** The encoder as a child process: it answers with an exit status and the
    bytes it wrote to its two pipes, and leaves the disk as it pleases. *)
Variable run_ffmpeg :
  list string -> gmap string (list byte) ->
  spawn_result (list byte) * gmap string (list byte).
(** The reading of captured bytes as text that [text=True] asks for: in the
    encoding of the locale, and failing on bytes that are no text in it. *)
Variable text_decode : list byte -> option string.
Variable abspath : string -> string.

(** [subprocess.run(cmd, stdout=PIPE, stderr=PIPE, text=True)]: [OSError]
    when the program cannot be started; otherwise the process runs to its
    end, and only then is its output decoded, with [UnicodeDecodeError] for
    output that is no text, whatever the exit status. *)
Definition subprocess_run (cmd : list string) : M CompletedProcess :=
  fun w =>
    let (r, d) := run_ffmpeg cmd (disk w) in
    let w' := after_spawn cmd r d w in
    match r with
    | Exited rc out err =>
        match text_decode out, text_decode err with
        | Some out, Some err =>
            (Ok {| returncode := rc; stdout := out; stderr := err |}, w')
        | _, _ => (Raise UnicodeDecodeError, w')
        end
    | SpawnFailed => (Raise OSError, w')
    end.

Definition ffmpeg_cmd (input_abspath start duration out_abspath : string)
  : list string :=
  [FFMPEG;
   "-ss"; start;
   "-i"; input_abspath;
   "-t"; duration;
   "-y";
   "-filter_complex";
   "[0:v]scale=1080:1920:force_original_aspect_ratio=decrease,"
   +:+ "pad=1080:1920:(ow-iw)/2:(oh-ih)/2,boxblur[bg];"
   +:+ "[0:v]scale=1080:-2[fg];"
   +:+ "[bg][fg]overlay=(W-w)/2:(H-h)/2,format=yuv420p[v]";
   "-map"; "[v]";
   "-map"; "0:a?";
   "-c:v"; "libx264";
   "-preset"; "fast";
   "-crf"; "23";
   "-c:a"; "aac";
   "-b:a"; "128k";
   out_abspath].

Definition create_short (input_path : string) (start duration : Z)
    (out_path : string) : M unit :=
  let input_abspath := abspath input_path in
  let out_abspath := abspath out_path in
  print ["FFmpeg input:"; input_abspath] ;;
  print ["FFmpeg output:"; out_abspath] ;;
  let cmd :=
    ffmpeg_cmd input_abspath (str_of_int start) (str_of_int duration)
      out_abspath in
  proc <- subprocess_run cmd ;;
  if negb (bool_decide (returncode proc = 0)) then
    print ["ffmpeg failed â€” stderr:"] ;;
    print [stderr proc] ;;
    raise (CalledProcessError (returncode proc) cmd)
  else ret tt.

(** ** The main program: step 4, create shorts *)

(** [os.path.join("shorts", f"short_{i+1:02d}.mp4")] *)
Definition short_path (i : nat) : string :=
  path_join "shorts" ("short_" +:+ format_02d (i + 1) +:+ ".mp4").

(** The body of the [for] loop.  [tqdm] hands the elements of [chosen] on
    unchanged. *)
Definition loop_body `{Seconds T} (video : string) (short_dur : Z)
    (item : nat * (T * T)) : M unit :=
  let '(i, (sstart, send)) := item in
  start <- lift (sec_int sstart) ;;
  let out := abspath (short_path i) in
  print [newline +:+ "Creating short ->"; out] ;;
  create_short video start short_dur out ;;
  print ["Finished ->"; out].

Definition main_loop `{Seconds T} (video : string) (short_dur : Z)
    (chosen : list (T * T)) : M unit :=
  for_each (enumerate chosen) (loop_body video short_dur).
End Render.

(** The command line that [create_short] builds for the [i]-th selected
    interval, once its start has been truncated to [start]. *)
Definition job_cmd (abspath : string -> string) (video : string)
    (short_dur : Z) (i : nat) (start : Z) : list string :=
  ffmpeg_cmd (abspath video) (str_of_int start) (str_of_int short_dur)
    (abspath (abspath (short_path i))).



(** ** The rest of the script

    [download], [detect_scenes] and the main program read the keyboard,
    list a directory and call into the scene detector.  They meet
    exceptions beside the ones above, and the lines typed at the keyboard
    are part of their state. *)

Inductive script_exn : Type :=
| Known (e : exn)
| EOFError
| IndexError
| DetectorError.

Inductive outcome (A : Type) : Type :=
| Return (a : A)
| Throw (e : script_exn).
Arguments Return {A} a.
Arguments Throw {A} e.

(** The lines still to be read from the keyboard, the prompts that
    [input] has written, and the world as above. *)
Record session : Type := Session {
  stdin : list string;
  prompts : list string;
  now : world;
}.

Definition Script (A : Type) : Type := session -> outcome A * session.

Definition sret {A} (a : A) : Script A := fun s => (Return a, s).

Definition throw {A} (e : script_exn) : Script A := fun s => (Throw e, s).

Definition sbind {A B} (m : Script A) (k : A -> Script B) : Script B :=
  fun s =>
    match m s with
    | (Return a, s') => k a s'
    | (Throw e, s') => (Throw e, s')
    end.

Notation "x <-- m ;; k" := (sbind m (fun x => k))
  (at level 100, m at next level, right associativity).
Notation "m ;;; k" := (sbind m (fun _ => k))
  (at level 100, right associativity).

(** A statement of the first kind, run inside the script. *)
Definition of_M {A} (m : M A) : Script A :=
  fun s =>
    let (r, w) := m (now s) in
    let s' := {| stdin := stdin s; prompts := prompts s; now := w |} in
    match r with
    | Ok a => (Return a, s')
    | Raise e => (Throw (Known e), s')
    end.

Definition of_result {A} (r : result A) : Script A :=
  fun s =>
    match r with
    | Ok a => (Return a, s)
    | Raise e => (Throw (Known e), s)
    end.

(** [input(prompt)]: [EOFError] when nothing is left to read. *)
Definition input (prompt : string) : Script string :=
  fun s =>
    let s' := {| stdin := tail (stdin s);
                 prompts := prompts s ++ [prompt];
                 now := now s |} in
    match stdin s with
    | line :: _ => (Return line, s')
    | [] => (Throw EOFError, s')
    end.

(** [try: body / except: handler], which catches everything. *)
Definition try_except {A} (body handler : Script A) : Script A :=
  fun s =>
    match body s with
    | (Return a, s') => (Return a, s')
    | (Throw _, s') => handler s'
    end.

(** [l[-1]] *)
Definition last_item {A} (l : list A) : Script A :=
  match last l with
  | Some x => sret x
  | None => throw IndexError
  end.

(** [subprocess.check_call(cmd)] *)
Definition check_call (cmd : list string) (r : spawn_result unit)
  : result unit :=
  match r with
  | Exited rc _ _ =>
      if bool_decide (rc = 0) then Ok tt else Raise (CalledProcessError rc cmd)
  | SpawnFailed => Raise OSError
  end.

Definition YT_DLP : string := "yt-dlp".

Section Script.
(** The operating system: directories, and the clock of the files. *)
Variable makedirs : string -> gmap string (list byte) ->
                    option (gmap string (list byte)).
Variable listdir : gmap string (list byte) -> string -> option (list string).
Variable getmtime : gmap string (list byte) -> string -> option finite_float.
Variable abspath : string -> string.
(** The interpreter that runs the script, and yt-dlp under it. *)
Variable sys_executable : string.
Variable run_ytdlp :
  list string -> gmap string (list byte) ->
  spawn_result unit * gmap string (list byte).
(** The scene detector: the scene list it finds in a file, as pairs of
    timecodes, and the reading of a timecode in seconds. *)
Variable timecode : Type.
Variable scene_list : string -> option (list (timecode * timecode)).
Variable get_seconds : timecode -> float.
(** ffprobe, ffmpeg and the built-ins, as above. *)
Variable run_ffprobe : list string -> spawn_result (list byte).
Variable bytes_decode : list byte -> option string.
Variable str_strip : string -> string.
Variable float_of_str : string -> option float.
Variable int_of_str : string -> option Z.
Variable run_ffmpeg :
  list string -> gmap string (list byte) ->
  spawn_result (list byte) * gmap string (list byte).
Variable text_decode : list byte -> option string.

(** [os.makedirs(path, exist_ok=True)] *)
Definition os_makedirs (path : string) : Script unit :=
  fun s =>
    match makedirs path (disk (now s)) with
    | Some d =>
        (Return tt,
         {| stdin := stdin s; prompts := prompts s;
            now := {| printed := printed (now s);
                      spawned := spawned (now s);
                      disk := d |} |})
    | None => (Throw (Known OSError), s)
    end.

(** [os.listdir(path)] *)
Definition os_listdir (path : string) : Script (list string) :=
  fun s =>
    match listdir (disk (now s)) path with
    | Some names => (Return names, s)
    | None => (Throw (Known OSError), s)
    end.

(** [key(x)] for each [x] of the list, in order, with
    [key = os.path.getmtime]: the first file without a time raises. *)
Fixpoint with_mtime (files : list string)
  : Script (list (finite_float * string)) :=
  match files with
  | [] => sret []
  | f :: files' =>
      t <-- (fun s =>
               match getmtime (disk (now s)) f with
               | Some t => (Return t, s)
               | None => (Throw (Known OSError), s)
               end) ;;
      rest <-- with_mtime files' ;;
      sret ((t, f) :: rest)
  end.

Definition mtime_key (tf : finite_float * string) : float := proj1_sig tf.1.

(** ** Download YouTube Video *)

Definition ytdlp_cmd (url : string) : list string :=
  [sys_executable; "-m"; "yt_dlp";
   "-f"; "bestvideo+bestaudio/best";
   "--merge-output-format"; "mp4";
   "-o"; path_join "downloads" "%(title)s.%(ext)s";
   url].

Definition download (url : string) : Script string :=
  os_makedirs "downloads" ;;;
  let cmd := ytdlp_cmd url in
  of_M (print ["Downloading video..."]) ;;;
  (fun s =>
     let (r, d) := run_ytdlp cmd (disk (now s)) in
     of_result (check_call cmd r)
       {| stdin := stdin s; prompts := prompts s;
          now := after_spawn cmd r d (now s) |}) ;;;
  names <-- os_listdir "downloads" ;;
  keyed <-- with_mtime (map (path_join "downloads") names) ;;
  let files := map snd (sorted PrimFloat.ltb mtime_key false keyed) in
  latest <-- last_item files ;;
  sret (abspath latest).

(** ** Scene Detection *)

Definition detect_scenes (path : string) : Script (list (float * float)) :=
  of_M (print ["Detecting scenes..."]) ;;;
  match scene_list path with
  | Some scenes =>
      sret (map (fun s => (get_seconds s.1, get_seconds s.2)) scenes)
  | None => throw DetectorError
  end.

(** ** MAIN PROGRAM *)

(** The three questions. *)
Definition read_settings : Script (string * Z * Z) :=
  of_M (print ["Paste YouTube link:"]) ;;;
  line <-- input "> " ;;
  let url := str_strip line in
  of_M (print ["Number of shorts (default 5):"]) ;;;
  n_shorts <-- try_except
                 (line <-- input "> " ;;
                  of_result (of_option ValueError
                               (int_of_str (str_strip line))))
                 (sret 5) ;;
  of_M (print ["Short duration in seconds (default 30):"]) ;;;
  short_dur <-- try_except
                  (line <-- input "> " ;;
                   of_result (of_option ValueError
                                (int_of_str (str_strip line))))
                  (sret 30) ;;
  sret (url, n_shorts, short_dur).

(** Steps 3 and 4, on floats from the detector or on ints from the
    fallback, and the last line. *)
Definition render_chosen `{Seconds T} (video : string) (n_shorts short_dur : Z)
    (scenes : list (T * T)) : Script unit :=
  let chosen := pick_top_scenes scenes n_shorts in
  of_M (main_loop run_ffmpeg text_decode abspath video short_dur chosen) ;;;
  of_M (print [newline +:+ "DONE! Your shorts are inside the 'shorts' folder."]).

(** Steps 1 to 4.  On the fallback path [get_video_length_seconds] starts
    ffprobe (line 58), which is one more child process when it can be
    started; it only reads. *)
Definition run_pipeline (url : string) (n_shorts short_dur : Z)
  : Script unit :=
  os_makedirs "shorts" ;;;
  video <-- (if String.prefix "http" url then download url else sret url) ;;
  of_M (print [newline +:+ "Video downloaded at:"; video]) ;;;
  scenes <-- detect_scenes video ;;
  match scenes with
  | [] =>
      of_M (print ["No scenes detected. Using sequential fallback."]) ;;;
      scenes <-- (fun s =>
                    let cmd := ffprobe_cmd video in
                    of_result
                      (make_sequential_scenes run_ffprobe bytes_decode
                         str_strip float_of_str video n_shorts short_dur)
                      {| stdin := stdin s; prompts := prompts s;
                         now := after_spawn cmd (run_ffprobe cmd)
                                  (disk (now s)) (now s) |}) ;;
      render_chosen video n_shorts short_dur scenes
  | _ => render_chosen video n_shorts short_dur scenes
  end.

Definition main : Script unit :=
  settings <-- read_settings ;;
  let '(url, n_shorts, short_dur) := settings in
  run_pipeline url n_shorts short_dur.
End Script.

(** ** Sample collaborators

    Concrete stand-ins for the external programs and built-ins, on which the
    functions above can be run. *)

Module Sample.
(** ffprobe is not installed. *)
Definition ffprobe_missing : list string -> spawn_result (list byte) :=
  fun _ => SpawnFailed.

(** ffprobe exits with status 0; its output is read as the float [d]. *)
Definition ffprobe_ok : list string -> spawn_result (list byte) :=
  fun _ => Exited 0 [] [].

Definition decode_ascii : list byte -> option string :=
  fun raw => Some (string_of_list_byte raw).

(** A strict decoder: bytes from 128 on are no text. *)
Definition decode_7bit : list byte -> option string :=
  fun raw =>
    if forallb (fun b => Nat.ltb (Byte.to_nat b) 128) raw
    then Some (string_of_list_byte raw)
    else None.

Definition strip_id : string -> string := fun s => s.

Definition float_never : string -> option float := fun _ => None.

Definition float_always (d : float) : string -> option float :=
  fun _ => Some d.




(** An encoder that always creates an empty destination file and exits with
    status 0. *)
Definition ffmpeg_ok :
    list string -> gmap string (list byte) ->
    spawn_result (list byte) * gmap string (list byte) :=
  fun cmd d =>
    match last cmd with
    | Some dest => (Exited 0 [] [], <[dest := []]> d)
    | None => (Exited 0 [] [], d)
    end.

(** [os.path.abspath] for a process whose working directory is [cwd], on
    paths that need no normalising. *)
Definition abspath_in (cwd : string) : string -> string :=
  fun p =>
    match p with
    | String "/" _ => p
    | _ => cwd +:+ "/" +:+ p
    end.

(** A float that evaluates to a finite one, as a time. *)
Definition seconds (f : float) (H : is_finite f = true) : finite_float :=
  exist _ f H.

Definition empty_world : world :=
  {| printed := []; spawned := []; disk := ∅ |}.

(** A session that starts with these lines waiting at the keyboard. *)
Definition typed (lines : list string) : session :=
  {| stdin := lines; prompts := []; now := empty_world |}.

(** Directories can always be made. *)
Definition makedirs_ok :
    string -> gmap string (list byte) -> option (gmap string (list byte)) :=
  fun _ d => Some d.

(** A directory with these entries, whatever is asked. *)
Definition listdir_of (names : list string) :
    gmap string (list byte) -> string -> option (list string) :=
  fun _ _ => Some names.

(** Modification times from a table. *)
Definition getmtime_of (table : list (string * finite_float)) :
    gmap string (list byte) -> string -> option finite_float :=
  fun _ p => (list_to_map table : gmap string finite_float) !! p.

(** yt-dlp exits with status [rc] and leaves the disk alone. *)
Definition ytdlp_exits (rc : Z) :
    list string -> gmap string (list byte) ->
    spawn_result unit * gmap string (list byte) :=
  fun _ d => (Exited rc tt tt, d).

(** The detector finds these scenes, given in seconds. *)
Definition scenes_found (scenes : list (float * float)) :
    string -> option (list (float * float)) :=
  fun _ => Some scenes.

(** [int(s)] on a string of ASCII characters without blanks: decimal
    digits, with single underscores between them, after an optional sign.
    The empty string, a sign alone and an underscore that does not stand
    between two digits are no int. *)
Fixpoint digits_value (s : string) (acc : Z) (after_digit : bool)
  : option Z :=
  match s with
  | EmptyString => if after_digit then Some acc else None
  | String c s' =>
      let k := Z.of_nat (nat_of_ascii c) - 48 in
      if (0 <=? k) && (k <=? 9) then digits_value s' (10 * acc + k) true
      else if Ascii.eqb c "_" && after_digit then digits_value s' acc false
      else None
  end.

Definition int_of_decimal (s : string) : option Z :=
  match s with
  | String "-" body => Z.opp <$> digits_value body 0 false
  | String "+" body => digits_value body 0 false
  | _ => digits_value s 0 false
  end.
End Sample.

(** * Properties *)

(** ** The stable sort *)

Section SortedFacts.
Context {A K : Type} (lt : K -> K -> bool) (key : A -> K).
Hypothesis lt_irrefl : forall x, lt (key x) (key x) = false.
Hypothesis lt_trans :
  forall x y z,
    lt (key x) (key y) = true -> lt (key y) (key z) = true ->
    lt (key x) (key z) = true.
Hypothesis lt_negtrans :
  forall x y z,
    lt (key x) (key y) = false -> lt (key y) (key z) = false ->
    lt (key x) (key z) = false.

Abbreviation le := (key_le lt key).
Abbreviation ins := (insert_stable lt key).
Abbreviation ssort := (stable_sort lt key).

Lemma lt_asym x y : lt (key x) (key y) = true -> lt (key y) (key x) = false.
Proof using lt_irrefl lt_trans.
  intros Hxy. destruct (lt (key y) (key x)) eqn:Hyx; [|done].
  by rewrite <- (lt_irrefl x), (lt_trans x y x).
Qed.

Lemma insert_stable_length x l : length (ins x l) = S (length l).
Proof.
  induction l as [|y l IH]; simpl; [done|].
  destruct (lt (key y) (key x)); simpl; by rewrite ?IH.
Qed.

Lemma stable_sort_length l : length (ssort l) = length l.
Proof.
  induction l as [|x l IH]; simpl; [done|].
  by rewrite insert_stable_length, IH.
Qed.

Lemma sorted_length rev l : length (sorted lt key rev l) = length l.
Proof.
  destruct rev; simpl; [|apply stable_sort_length].
  by rewrite length_reverse, stable_sort_length, length_reverse.
Qed.

Lemma insert_stable_Forall (P : A -> Prop) x l :
  P x -> Forall P l -> Forall P (ins x l).
Proof.
  intros Hx. induction 1 as [|y l Hy Hl IH]; simpl.
  - by constructor.
  - destruct (lt (key y) (key x)); repeat constructor; auto.
Qed.

Lemma insert_stable_ascending x l :
  StronglySorted le l -> StronglySorted le (ins x l).
Proof using lt_irrefl lt_trans lt_negtrans.
  induction 1 as [|y l Hl IH Hy]; simpl.
  - repeat constructor.
  - destruct (lt (key y) (key x)) eqn:Hyx.
    + constructor; [done|].
      apply insert_stable_Forall; [|done].
      by apply lt_asym.
    + constructor; [by constructor|].
      constructor; [done|].
      eapply Forall_impl; [exact Hy|].
      intros z Hz. unfold key_le in *. by apply lt_negtrans with y.
Qed.

Lemma stable_sort_ascending l : StronglySorted le (ssort l).
Proof using lt_irrefl lt_trans lt_negtrans.
  induction l as [|x l IH]; simpl; [constructor|].
  by apply insert_stable_ascending.
Qed.

Lemma StronglySorted_reverse (R : relation A) l :
  StronglySorted R l -> StronglySorted (flip R) (reverse l).
Proof.
  induction 1 as [|x l Hl IH Hx].
  - constructor.
  - rewrite reverse_cons. apply StronglySorted_app_2; [|done|repeat constructor].
    intros y z Hy Hz. apply list_elem_of_singleton in Hz as ->.
    rewrite Forall_forall in Hx. apply Hx. by apply elem_of_reverse.
Qed.

Lemma sorted_reverse_descending l :
  StronglySorted (flip le) (sorted lt key true l).
Proof using lt_irrefl lt_trans lt_negtrans.
  apply StronglySorted_reverse, stable_sort_ascending.
Qed.

(** A list that is already in order is left as it is. *)
Lemma stable_sort_ascending_id l : Sorted le l -> ssort l = l.
Proof.
  induction 1 as [|x l Hl IH Hx]; simpl; [done|].
  rewrite IH. destruct Hx as [|y l Hxy]; simpl; [done|].
  unfold key_le in Hxy. by rewrite Hxy.
Qed.

Lemma sorted_reverse_descending_id l :
  StronglySorted (flip le) l -> sorted lt key true l = l.
Proof.
  intros Hl. simpl. rewrite stable_sort_ascending_id.
  - apply reverse_involutive.
  - apply StronglySorted_Sorted. by apply StronglySorted_reverse in Hl.
Qed.

(** Elements with a key that the comparison cannot tell from the key of
    [x0] keep their order. *)
Abbreviation same x0 :=
  (fun y : A => negb (lt (key x0) (key y)) && negb (lt (key y) (key x0))).

Lemma insert_stable_filter x0 x l :
  filter (same x0) (ins x l) = filter (same x0) (x :: l).
Proof using lt_negtrans.
  induction l as [|y l IH]; simpl; [done|].
  destruct (lt (key y) (key x)) eqn:Hyx; [|done].
  rewrite (filter_cons _ y), IH, !(filter_cons _ x), (filter_cons _ y).
  destruct (decide (same x0 x)) as [Hx|Hx]; [|done].
  destruct (decide (same x0 y)) as [Hy|Hy]; [|done].
  exfalso.
  apply andb_True in Hx as [Hx1 Hx2], Hy as [Hy1 Hy2].
  apply negb_True, Is_true_false_1 in Hx1, Hy2.
  by rewrite (lt_negtrans _ _ _ Hy2 Hx1) in Hyx.
Qed.

Lemma stable_sort_filter x0 l :
  filter (same x0) (ssort l) = filter (same x0) l.
Proof using lt_negtrans.
  induction l as [|x l IH]; simpl; [done|].
  by rewrite insert_stable_filter, !filter_cons, IH.
Qed.

Lemma sorted_filter x0 rev l :
  filter (same x0) (sorted lt key rev l) = filter (same x0) l.
Proof using lt_negtrans.
  destruct rev; simpl; [|apply stable_sort_filter].
  by rewrite filter_reverse, stable_sort_filter, filter_reverse,
    reverse_involutive.
Qed.
End SortedFacts.

Lemma StronglySorted_lookup_lt {A} (R : relation A) l i j a b :
  StronglySorted R l -> (i < j)%nat ->
  l !! i = Some a -> l !! j = Some b -> R a b.
Proof.
  intros Hl Hij Ha Hb. rewrite <- (take_drop j l) in Hl.
  apply (StronglySorted_app_1_elem_of _ _ _ a b) in Hl; [done| |].
  - apply list_elem_of_lookup. exists i. by rewrite lookup_take_lt.
  - apply list_elem_of_lookup. exists 0%nat. by rewrite lookup_drop, Nat.add_0_r.
Qed.

Lemma StronglySorted_take {A} (R : relation A) l m :
  StronglySorted R l -> StronglySorted R (take m l).
Proof.
  intros Hl. rewrite <- (take_drop m l) in Hl.
  by apply StronglySorted_app_1_l in Hl.
Qed.

Lemma filter_take_prefix {A} (P : A -> Prop) `{!forall x, Decision (P x)} l m :
  filter P (take m l) `prefix_of` filter P l.
Proof.
  exists (filter P (drop m l)). by rewrite <- filter_app, take_drop.
Qed.

(** ** Python ints as seconds *)

#[export] Instance Z_SecondsOrder : SecondsOrder Z.
Proof.
  split; unfold scene_key; simpl.
  - intros s. apply Z.ltb_irrefl.
  - intros s1 s2 s3. rewrite !Z.ltb_lt. lia.
  - intros s1 s2 s3. rewrite !Z.ltb_ge. lia.
  - intros s1 s2. by rewrite Z.geb_leb, Z.leb_antisym.
Qed.

(** ** Finite floats as seconds

    The comparison of binary64 floats, read on their sign, exponent and
    mantissa; and the rounding of a difference, which never ends in a
    NaN. *)

Ltac compare_cases :=
  repeat match goal with
    | |- context [Z.compare ?x ?y] => destruct (Z.compare_spec x y); subst
    | |- context [Pos.compare_cont Eq ?x ?y] =>
        change (Pos.compare_cont Eq x y) with (Pos.compare x y);
        destruct (Pos.compare_spec x y); subst
    end;
  simpl; try done; try lia.

Lemma SFltb_irrefl a : SFltb a a = false.
Proof.
  unfold SFltb, SFcompare. destruct a as [s|s| |s m e]; try done.
  - by destruct s.
  - destruct s; rewrite Z.compare_refl;
      change (Pos.compare_cont Eq m m) with (Pos.compare m m);
      by rewrite Pos.compare_refl.
Qed.

Lemma SFltb_trans a b c :
  SFltb a b = true -> SFltb b c = true -> SFltb a c = true.
Proof.
  unfold SFltb, SFcompare.
  destruct a as [sa|sa| |sa ma ea], b as [sb|sb| |sb mb eb],
    c as [sc|sc| |sc mc ec]; try done;
    try destruct sa; try destruct sb; try destruct sc; try done;
    compare_cases.
Qed.

Lemma SFltb_negtrans a b c :
  b <> S754_nan ->
  SFltb a b = false -> SFltb b c = false -> SFltb a c = false.
Proof.
  unfold SFltb, SFcompare.
  destruct a as [sa|sa| |sa ma ea], b as [sb|sb| |sb mb eb],
    c as [sc|sc| |sc mc ec]; try done;
    try destruct sa; try destruct sb; try destruct sc; try done;
    compare_cases.
Qed.

Lemma SFleb_not_SFltb a b :
  a <> S754_nan -> b <> S754_nan -> SFleb b a = negb (SFltb a b).
Proof.
  unfold SFleb, SFltb, SFcompare.
  destruct a as [sa|sa| |sa ma ea], b as [sb|sb| |sb mb eb]; try done;
    try destruct sa; try destruct sb; try done;
    compare_cases.
Qed.

Lemma shr_1_nonneg mrs : 0 <= shr_m mrs -> 0 <= shr_m (shr_1 mrs).
Proof. destruct mrs as [[|[p|p|]|p] r s]; simpl; lia. Qed.

Lemma iter_pos_shr_1_nonneg p mrs :
  0 <= shr_m mrs -> 0 <= shr_m (SpecFloat.iter_pos shr_1 p mrs).
Proof.
  revert mrs. induction p as [p IH|p IH|]; intros mrs Hm; simpl.
  - by apply IH, IH, shr_1_nonneg.
  - by apply IH, IH.
  - by apply shr_1_nonneg.
Qed.

Lemma shr_fexp_nonneg prec emax m e l :
  0 <= m -> 0 <= shr_m (shr_fexp prec emax m e l).1.
Proof.
  intros Hm. unfold shr_fexp, shr.
  assert (0 <= shr_m (shr_record_of_loc m l)) as Hr
    by (by destruct l as [|[]]).
  destruct (_ - e); simpl; [done| |done].
  by apply iter_pos_shr_1_nonneg.
Qed.

Lemma round_nearest_even_nonneg m l : 0 <= m -> 0 <= round_nearest_even m l.
Proof.
  intros Hm. destruct l as [|[]]; simpl; try lia. destruct (Z.even m); lia.
Qed.

Lemma binary_round_aux_not_nan prec emax s m e l :
  0 <= m -> binary_round_aux prec emax s m e l <> S754_nan.
Proof.
  intros Hm. unfold binary_round_aux.
  pose proof (shr_fexp_nonneg prec emax m e l Hm) as H1.
  destruct (shr_fexp prec emax m e l) as [mrs' e']. simpl in H1.
  pose proof (shr_fexp_nonneg prec emax _ e' loc_Exact
    (round_nearest_even_nonneg _ (loc_of_shr_record mrs') H1)) as H2.
  destruct (shr_fexp prec emax _ e' loc_Exact) as [mrs'' e'']. simpl in H2.
  destruct (shr_m mrs''); [done| |lia].
  by destruct (_ <=? _).
Qed.

Lemma binary_normalize_not_nan prec emax m e s :
  binary_normalize prec emax m e s <> S754_nan.
Proof.
  unfold binary_normalize, binary_round.
  destruct m; [done| |]; destruct (shl_align _ _ _);
    by apply binary_round_aux_not_nan.
Qed.

Lemma is_finite_Prim2SF f :
  is_finite f = true ->
  match Prim2SF f with
  | S754_zero _ | S754_finite _ _ _ => True
  | _ => False
  end.
Proof.
  unfold is_finite, is_nan, is_infinity.
  rewrite !FloatAxioms.eqb_spec, abs_spec.
  change (Prim2SF infinity) with (S754_infinity false).
  unfold SFeqb, SFcompare. by destruct (Prim2SF f) as [s|[]| |s m e].
Qed.

(** The difference of two finite floats is a number. *)
Lemma finite_sub_not_nan (a b : finite_float) :
  Prim2SF (proj1_sig a - proj1_sig b) <> S754_nan.
Proof.
  destruct a as [a Ha], b as [b Hb]. simpl. rewrite sub_spec.
  apply is_finite_Prim2SF in Ha, Hb. unfold SF64sub.
  destruct (Prim2SF a) as [sa|sa| |sa ma ea],
    (Prim2SF b) as [sb|sb| |sb mb eb]; try done; simpl.
  - by destruct sa, sb.
  - apply binary_normalize_not_nan.
Qed.

#[export] Instance finite_float_SecondsOrder : SecondsOrder finite_float.
Proof.
  split; unfold scene_key; simpl.
  - intros s. rewrite ltb_spec. apply SFltb_irrefl.
  - intros s1 s2 s3. rewrite !ltb_spec. apply SFltb_trans.
  - intros s1 s2 s3. rewrite !ltb_spec.
    apply SFltb_negtrans, finite_sub_not_nan.
  - intros s1 s2. rewrite leb_spec, ltb_spec.
    apply SFleb_not_SFltb; apply finite_sub_not_nan.
Qed.

Lemma Z_sec_same (a b : Z) : sec_same (T := Z) a b = true <-> a = b.
Proof.
  unfold sec_same. simpl.
  rewrite andb_true_iff, !negb_true_iff, !Z.ltb_ge. lia.
Qed.

(** ** Pick Top Scenes *)

Example pick_top_scenes_scenario_A :
  pick_top_scenes [(0, 10); (10, 15); (15, 45)] 2 = [(15, 45); (0, 10)].
Proof. reflexivity. Qed.

Example pick_top_scenes_floats :
  pick_top_scenes [(0, 10.5); (10.5, 15); (15, 45.25)]%float 2
  = [(15, 45.25); (0, 10.5)]%float.
Proof. reflexivity. Qed.

(** [int(...)] of a finite float never raises. *)
Lemma finite_float_int (a : finite_float) : exists n, sec_int a = Ok n.
Proof.
  destruct a as [a Ha]. simpl. unfold int_of_float.
  apply is_finite_Prim2SF in Ha.
  destruct (Prim2SF a); try done; by eexists.
Qed.

Section Selector.
Context `{SecondsOrder T}.

Lemma pick_top_scenes_unfold (scenes : list (T * T)) n :
  pick_top_scenes scenes n = slice_to (sorted sec_lt scene_key true scenes) n.
Proof.
  destruct scenes; [|done].
  change (sorted sec_lt scene_key true []) with (@nil (T * T)).
  unfold slice_to. by rewrite take_nil.
Qed.

Lemma pick_top_scenes_sorted (scenes : list (T * T)) n :
  StronglySorted (flip (key_le sec_lt scene_key)) (pick_top_scenes scenes n).
Proof.
  rewrite pick_top_scenes_unfold. apply StronglySorted_take.
  apply sorted_reverse_descending;
    [apply sec_lt_irrefl | apply sec_lt_trans | apply sec_lt_negtrans].
Qed.

Lemma slice_stop_nonneg len n :
  0 <= n -> slice_stop len n = Nat.min (Z.to_nat n) len.
Proof.
  intros Hn. unfold slice_stop.
  destruct (Z.ltb_spec n 0); lia.
Qed.

Lemma pick_top_scenes_length_min (scenes : list (T * T)) n :
  0 <= n ->
  length (pick_top_scenes scenes n) = Nat.min (Z.to_nat n) (length scenes).
Proof.
  intros Hn. rewrite pick_top_scenes_unfold. unfold slice_to.
  rewrite length_take, sorted_length, slice_stop_nonneg by done. lia.
Qed.
End Selector.

(** C4, as stated, fails for a negative [n]: [scenes_sorted[:-1]] drops the
    last element, so two scenes give one, not [min(-1, 2)]. *)
Lemma pick_top_scenes_length_negative_n :
  Z.of_nat (length (pick_top_scenes [(0, 10); (10, 15)] (-1)))
  <> Z.min (-1) (Z.of_nat (length [(0, 10); (10, 15)])).
Proof. vm_compute. discriminate. Qed.

(** C4 (amended): for every list of intervals and every [n >= 0], the
    selection has [min(n, len(intervals))] elements. *)
Theorem pick_top_scenes_length `{Seconds T} (scenes : list (T * T)) n :
  0 <= n ->
  Z.of_nat (length (pick_top_scenes scenes n))
  = Z.min n (Z.of_nat (length scenes)).
Proof.
  intros Hn. rewrite pick_top_scenes_length_min by done. lia.
Qed.

Lemma pick_top_scenes_length_witness :
  Z.of_nat (length (pick_top_scenes [(0, 10); (10, 15); (15, 45)] 2))
  = Z.min 2 (Z.of_nat (length [(0, 10); (10, 15); (15, 45)])).
Proof. apply pick_top_scenes_length. lia. Defined.

(** C5: in the output of [pick_top_scenes], an interval at an earlier
    position is at least as long ([end - start]) as one at a later
    position. *)
Theorem pick_top_scenes_descending `{SecondsOrder T}
    (scenes : list (T * T)) n (i j : nat) (a b : T * T) :
  (i < j)%nat ->
  pick_top_scenes scenes n !! i = Some a ->
  pick_top_scenes scenes n !! j = Some b ->
  sec_ge (scene_key a) (scene_key b) = true.
Proof.
  intros Hij Ha Hb. rewrite sec_ge_not_lt.
  pose proof (StronglySorted_lookup_lt _ _ _ _ _ _
    (pick_top_scenes_sorted scenes n) Hij Ha Hb) as Hab.
  unfold flip, key_le in Hab. by rewrite Hab.
Qed.

Lemma pick_top_scenes_descending_witness :
  sec_ge (scene_key (15, 45)) (scene_key (0, 10)) = true
  /\ sec_ge
       (scene_key (Sample.seconds 15 eq_refl, Sample.seconds 45.5 eq_refl))
       (scene_key (Sample.seconds 0 eq_refl, Sample.seconds 10.25 eq_refl))
     = true.
Proof.
  split.
  - apply (pick_top_scenes_descending [(0, 10); (10, 15); (15, 45)] 2 0 1);
      [lia | reflexivity | reflexivity].
  - apply (pick_top_scenes_descending
             [(Sample.seconds 0 eq_refl, Sample.seconds 10.25 eq_refl);
              (Sample.seconds 10.25 eq_refl, Sample.seconds 15 eq_refl);
              (Sample.seconds 15 eq_refl, Sample.seconds 45.5 eq_refl)]
             2 0 1);
      [lia | reflexivity | reflexivity].
Defined.

(** C6: the selection is stable.  For any interval [s0], the selected
    intervals as long as [s0], read in output order, are the first ones as
    long as [s0] of the input, read in input order.  So of two intervals
    of equal length the one that comes earlier in the input comes earlier
    in the output, and is selected whenever the later one is. *)
Theorem pick_top_scenes_stable `{SecondsOrder T}
    (scenes : list (T * T)) n (s0 : T * T) :
  filter (fun s => sec_same (scene_key s0) (scene_key s))
    (pick_top_scenes scenes n)
  `prefix_of`
  filter (fun s => sec_same (scene_key s0) (scene_key s)) scenes.
Proof.
  rewrite pick_top_scenes_unfold. unfold slice_to, sec_same.
  rewrite <- (sorted_filter sec_lt scene_key sec_lt_negtrans s0 true scenes).
  apply filter_take_prefix.
Qed.

Lemma pick_top_scenes_stable_witness :
  filter (fun s => sec_same (scene_key (0, 10)) (scene_key s))
    (pick_top_scenes [(0, 10); (10, 15); (15, 45); (50, 60); (70, 80)] 3)
  `prefix_of`
  filter (fun s => sec_same (scene_key (0, 10)) (scene_key s))
    [(0, 10); (10, 15); (15, 45); (50, 60); (70, 80)].
Proof.
  apply (pick_top_scenes_stable
           [(0, 10); (10, 15); (15, 45); (50, 60); (70, 80)] 3 (0, 10)).
Defined.

Example pick_top_scenes_ties :
  pick_top_scenes [(0, 10); (10, 15); (15, 45); (50, 60); (70, 80)] 3
  = [(15, 45); (0, 10); (50, 60)].
Proof. reflexivity. Qed.

(** C7, as stated, fails for a negative [n]: each application of
    [scenes_sorted[:-1]] drops one more interval. *)
Lemma pick_top_scenes_twice_negative_n :
  pick_top_scenes (pick_top_scenes [(0, 10); (10, 15); (15, 45)] (-1)) (-1)
  <> pick_top_scenes [(0, 10); (10, 15); (15, 45)] (-1).
Proof. vm_compute. discriminate. Qed.

(** C7 (amended): for every list of intervals and every [n >= 0], selecting
    again from the selection, with the same [n], changes nothing. *)
Theorem pick_top_scenes_idempotent `{SecondsOrder T}
    (scenes : list (T * T)) n :
  0 <= n ->
  pick_top_scenes (pick_top_scenes scenes n) n = pick_top_scenes scenes n.
Proof.
  intros Hn.
  rewrite (pick_top_scenes_unfold (pick_top_scenes scenes n)).
  rewrite sorted_reverse_descending_id by apply pick_top_scenes_sorted.
  unfold slice_to. apply take_ge.
  rewrite slice_stop_nonneg by done.
  rewrite pick_top_scenes_length_min by done. lia.
Qed.

Lemma pick_top_scenes_idempotent_witness :
  pick_top_scenes (pick_top_scenes [(0, 10); (10, 15); (15, 45)] 2) 2
  = pick_top_scenes [(0, 10); (10, 15); (15, 45)] 2.
Proof. apply pick_top_scenes_idempotent. lia. Defined.

(** ** The duration probe and the fallback segmenter *)

Example int_of_float_truncates :
  int_of_float 90.5 = Ok 90 /\ int_of_float (-2.5) = Ok (-2)
  /\ int_of_float 0.25 = Ok 0 /\ int_of_float 0 = Ok 0.
Proof. repeat split; reflexivity. Qed.

Example int_of_float_raises :
  int_of_float nan = Raise ValueError
  /\ int_of_float infinity = Raise OverflowError.
Proof. split; reflexivity. Qed.

Example make_sequential_scenes_scenario_B :
  make_sequential_scenes Sample.ffprobe_ok Sample.decode_ascii
    Sample.strip_id (Sample.float_always 90) "video.mp4" 3 30
  = Ok [(0, 30); (30, 60); (60, 90)].
Proof. reflexivity. Qed.

Section FallbackFacts.
Variable run_ffprobe : list string -> spawn_result (list byte).
Variable bytes_decode : list byte -> option string.
Variable str_strip : string -> string.
Variable float_of_str : string -> option float.

Abbreviation probe :=
  (get_video_length_seconds run_ffprobe bytes_decode str_strip float_of_str).
Abbreviation fallback :=
  (make_sequential_scenes run_ffprobe bytes_decode str_strip float_of_str).

Lemma range_length n : length (range n) = Z.to_nat n.
Proof. unfold range. by rewrite length_map, length_seq. Qed.

Lemma range_lookup n i : 0 <= i < n -> range n !! Z.to_nat i = Some i.
Proof.
  intros Hi. unfold range.
  change (map Z.of_nat ?l) with (Z.of_nat <$> l).
  rewrite list_lookup_fmap, lookup_seq_lt by lia. simpl. f_equal. lia.
Qed.

Lemma fallback_unfold path n clip_len seconds total :
  probe path = Ok seconds ->
  int_of_float seconds = Ok total ->
  fallback path n clip_len
  = Ok ((fun i => (i * clip_len, Z.min (i * clip_len + clip_len) total))
          <$> range n).
Proof.
  intros Hp Ht. unfold make_sequential_scenes. rewrite Hp. simpl.
  rewrite Ht. simpl. f_equal. by rewrite map_map.
Qed.
End FallbackFacts.

(** C8: the duration probe never raises.  When ffprobe cannot be started,
    exits with a non-zero status, or prints something that cannot be decoded
    or parsed as a float, the probe returns [0.0]; when ffprobe succeeds and
    its output parses, the probe returns the parsed float. *)
Theorem get_video_length_seconds_never_raises
    (run_ffprobe : list string -> spawn_result (list byte))
    (bytes_decode : list byte -> option string)
    (str_strip : string -> string)
    (float_of_str : string -> option float) (path : string) :
  let probe :=
    get_video_length_seconds run_ffprobe bytes_decode str_strip float_of_str in
  let run := run_ffprobe (ffprobe_cmd path) in
  (exists d, probe path = Ok d)
  /\ (run = SpawnFailed -> probe path = Ok PrimFloat.zero)
  /\ (forall rc out err,
        run = Exited rc out err -> rc <> 0 -> probe path = Ok PrimFloat.zero)
  /\ (forall out err,
        run = Exited 0 out err -> bytes_decode out = None ->
        probe path = Ok PrimFloat.zero)
  /\ (forall out err text,
        run = Exited 0 out err -> bytes_decode out = Some text ->
        float_of_str (str_strip text) = None ->
        probe path = Ok PrimFloat.zero)
  /\ (forall out err text d,
        run = Exited 0 out err -> bytes_decode out = Some text ->
        float_of_str (str_strip text) = Some d ->
        probe path = Ok d).
Proof.
  intros probe run. subst probe run. unfold get_video_length_seconds.
  repeat split.
  - destruct (run_ffprobe (ffprobe_cmd path)) as [rc out err|]; simpl;
      [|by eexists].
    case_bool_decide; simpl; [|by eexists].
    destruct (bytes_decode out) as [text|]; simpl; [|by eexists].
    destruct (float_of_str (str_strip text)); simpl; by eexists.
  - by intros ->.
  - intros rc out err -> Hrc. simpl. by rewrite bool_decide_eq_false_2.
  - intros out err -> Hd. simpl. by rewrite Hd.
  - intros out err text -> Hd Hf. simpl. rewrite Hd. simpl. by rewrite Hf.
  - intros out err text d -> Hd Hf. simpl. rewrite Hd. simpl. by rewrite Hf.
Qed.

Lemma get_video_length_seconds_never_raises_witness :
  get_video_length_seconds Sample.ffprobe_missing Sample.decode_ascii
    Sample.strip_id Sample.float_never "video.mp4" = Ok PrimFloat.zero
  /\ get_video_length_seconds Sample.ffprobe_ok Sample.decode_ascii
       Sample.strip_id (Sample.float_always 90.5) "video.mp4" = Ok 90.5%float.
Proof.
  split.
  - apply (get_video_length_seconds_never_raises Sample.ffprobe_missing
             Sample.decode_ascii Sample.strip_id Sample.float_never
             "video.mp4").
    reflexivity.
  - apply (get_video_length_seconds_never_raises Sample.ffprobe_ok
             Sample.decode_ascii Sample.strip_id (Sample.float_always 90.5)
             "video.mp4") with (out := []) (err := []) (text := "");
      reflexivity.
Defined.

(** C1, as stated, fails: with a total duration of 0 the second interval is
    [(20, min(40, 0))], that is [(20, 0)], not [(20, 20)]. *)
Lemma make_sequential_scenes_probe_failed_not_20_20 :
  make_sequential_scenes Sample.ffprobe_missing Sample.decode_ascii
    Sample.strip_id Sample.float_never "video.mp4" 2 20
  <> Ok [(0, 0); (20, 20)].
Proof. vm_compute. discriminate. Qed.

(** C1 (amended): if the duration probe fails (returns [0.0]) and the
    fallback segmenter is called with count 2 and clip length 20, it returns
    exactly the two intervals [(0,0)] and [(20,0)], without raising. *)
Theorem make_sequential_scenes_probe_failed
    (run_ffprobe : list string -> spawn_result (list byte))
    (bytes_decode : list byte -> option string)
    (str_strip : string -> string)
    (float_of_str : string -> option float) (path : string) :
  get_video_length_seconds run_ffprobe bytes_decode str_strip float_of_str path
  = Ok PrimFloat.zero ->
  make_sequential_scenes run_ffprobe bytes_decode str_strip float_of_str
    path 2 20
  = Ok [(0, 0); (20, 0)].
Proof.
  intros Hp. by rewrite (fallback_unfold _ _ _ _ _ _ _ _ 0 Hp).
Qed.

Lemma make_sequential_scenes_probe_failed_witness :
  make_sequential_scenes Sample.ffprobe_missing Sample.decode_ascii
    Sample.strip_id Sample.float_never "video.mp4" 2 20
  = Ok [(0, 0); (20, 0)].
Proof. apply make_sequential_scenes_probe_failed. reflexivity. Defined.

(** C2: for every non-negative count [n] and every clip length, the fallback
    segmenter returns exactly [n] intervals, the [i]-th (from 0) being
    [(i * clip_len, min(i * clip_len + clip_len, total))], where [total] is
    the probed duration truncated to whole seconds. *)
Theorem make_sequential_scenes_intervals
    (run_ffprobe : list string -> spawn_result (list byte))
    (bytes_decode : list byte -> option string)
    (str_strip : string -> string)
    (float_of_str : string -> option float)
    (path : string) (n clip_len : Z) (seconds : float) (total : Z) :
  0 <= n -> 0 <= clip_len ->
  get_video_length_seconds run_ffprobe bytes_decode str_strip float_of_str path
  = Ok seconds ->
  int_of_float seconds = Ok total ->
  exists scenes,
    make_sequential_scenes run_ffprobe bytes_decode str_strip float_of_str
      path n clip_len = Ok scenes
    /\ Z.of_nat (length scenes) = n
    /\ forall i, 0 <= i < n ->
         scenes !! Z.to_nat i
         = Some (i * clip_len, Z.min (i * clip_len + clip_len) total).
Proof.
  intros Hn _ Hp Ht. eexists.
  split; [apply (fallback_unfold _ _ _ _ _ _ _ _ _ Hp Ht)|]. split.
  - rewrite length_fmap, range_length. lia.
  - intros i Hi. by rewrite list_lookup_fmap, range_lookup.
Qed.

Lemma make_sequential_scenes_intervals_witness :
  exists scenes,
    make_sequential_scenes Sample.ffprobe_ok Sample.decode_ascii
      Sample.strip_id (Sample.float_always 90.5) "video.mp4" 3 30 = Ok scenes
    /\ Z.of_nat (length scenes) = 3
    /\ forall i, 0 <= i < 3 ->
         scenes !! Z.to_nat i = Some (i * 30, Z.min (i * 30 + 30) 90).
Proof.
  apply (make_sequential_scenes_intervals Sample.ffprobe_ok
           Sample.decode_ascii Sample.strip_id (Sample.float_always 90.5)
           "video.mp4" 3 30 90.5%float 90);
    [lia | lia | reflexivity | reflexivity].
Defined.

(** C3, as stated, fails for a clip length of 0: with a 10-second video, one
    clip of length 0 is the interval [(0, 0)], which is empty although the
    total duration 10 exceeds its start 0. *)
Lemma make_sequential_scenes_zero_clip_len_empty :
  get_video_length_seconds Sample.ffprobe_ok Sample.decode_ascii
    Sample.strip_id (Sample.float_always 10) "video.mp4" = Ok 10%float
  /\ int_of_float 10 = Ok 10
  /\ make_sequential_scenes Sample.ffprobe_ok Sample.decode_ascii
       Sample.strip_id (Sample.float_always 10) "video.mp4" 1 0
     = Ok [(0, 0)]
  /\ 10 > 0 /\ ~ (0 < 0).
Proof. repeat split; try reflexivity. lia. Qed.

(** C3 (amended): for every non-negative count and every positive clip
    length, each interval [(start, end)] of the fallback segmenter has
    [start < end] whenever the total duration exceeds [start]; an interval
    with [end <= start] occurs only when the total duration is at most
    [start]. *)
Theorem make_sequential_scenes_nonempty
    (run_ffprobe : list string -> spawn_result (list byte))
    (bytes_decode : list byte -> option string)
    (str_strip : string -> string)
    (float_of_str : string -> option float)
    (path : string) (n clip_len : Z) (seconds : float) (total : Z)
    (scenes : list (Z * Z)) (i : nat) (s e : Z) :
  0 <= n -> 0 < clip_len ->
  get_video_length_seconds run_ffprobe bytes_decode str_strip float_of_str path
  = Ok seconds ->
  int_of_float seconds = Ok total ->
  make_sequential_scenes run_ffprobe bytes_decode str_strip float_of_str
    path n clip_len = Ok scenes ->
  scenes !! i = Some (s, e) ->
  (total > s -> s < e) /\ (e <= s -> total <= s).
Proof.
  intros _ Hc Hp Ht Hs Hi.
  rewrite (fallback_unfold _ _ _ _ _ _ _ _ _ Hp Ht) in Hs.
  injection Hs as <-. rewrite list_lookup_fmap in Hi.
  destruct (range n !! i) as [k|]; simpl in Hi; [|done].
  injection Hi as <- <-. lia.
Qed.

Lemma make_sequential_scenes_nonempty_witness :
  (90 > 60 -> 60 < 90) /\ (90 <= 60 -> 90 <= 60).
Proof.
  apply (make_sequential_scenes_nonempty Sample.ffprobe_ok
           Sample.decode_ascii Sample.strip_id (Sample.float_always 90.5)
           "video.mp4" 3 30 90.5%float 90 [(0, 30); (30, 60); (60, 90)]
           2%nat 60 90);
    [lia | lia | reflexivity | reflexivity | reflexivity | reflexivity].
Defined.

(** ** Rendering *)

Section RenderFacts.
Variable run_ffmpeg :
  list string -> gmap string (list byte) ->
  spawn_result (list byte) * gmap string (list byte).
Variable text_decode : list byte -> option string.
Variable abspath : string -> string.
Context `{Seconds T}.

Abbreviation body := (loop_body (T := T) run_ffmpeg text_decode abspath).
Abbreviation loop := (main_loop (T := T) run_ffmpeg text_decode abspath).

Lemma for_each_cons {A} (x : A) (l : list A) (f : A -> M unit) w :
  for_each (x :: l) f w
  = match f x w with
    | (Ok _, w') => for_each l f w'
    | (Raise e, w') => (Raise e, w')
    end.
Proof. reflexivity. Qed.

Lemma enumerate_from_cons {A} k (x : A) (l : list A) :
  enumerate_from k (x :: l) = (k, x) :: enumerate_from (S k) l.
Proof. reflexivity. Qed.

Lemma for_each_app {A} (l1 l2 : list A) (f : A -> M unit) w :
  for_each (l1 ++ l2) f w
  = match for_each l1 f w with
    | (Ok _, w') => for_each l2 f w'
    | (Raise e, w') => (Raise e, w')
    end.
Proof.
  revert w. induction l1 as [|x l1 IH]; intros w; simpl; [done|].
  unfold bind. destruct (f x w) as [[[]|e] w']; [apply IH|done].
Qed.

Lemma enumerate_from_app {A} k (l1 l2 : list A) :
  enumerate_from k (l1 ++ l2)
  = enumerate_from k l1 ++ enumerate_from (k + length l1) l2.
Proof.
  revert k. induction l1 as [|x l1 IH]; intros k; simpl.
  - by rewrite Nat.add_0_r.
  - rewrite IH. do 3 f_equal. lia.
Qed.

(** One pass through the loop body, by what becomes of the encoder. *)
Lemma loop_body_unfold video short_dur i sstart send start w :
  sec_int sstart = Ok start ->
  let out := abspath (short_path i) in
  let cmd :=
    ffmpeg_cmd (abspath video) (str_of_int start) (str_of_int short_dur)
      (abspath out) in
  let head :=
    [print_text [newline +:+ "Creating short ->"; out];
     print_text ["FFmpeg input:"; abspath video];
     print_text ["FFmpeg output:"; abspath out]] in
  body video short_dur (i, (sstart, send)) w
  = match run_ffmpeg cmd (disk w) with
    | (Exited rc raw_out raw_err, d) =>
        match text_decode raw_out, text_decode raw_err with
        | Some _, Some err =>
            if bool_decide (rc = 0) then
              (Ok tt,
               {| printed :=
                    printed w ++ head ++ [print_text ["Finished ->"; out]];
                  spawned := spawned w ++ [cmd];
                  disk := d |})
            else
              (Raise (CalledProcessError rc cmd),
               {| printed :=
                    printed w ++ head ++ ["ffmpeg failed â€” stderr:"; err];
                  spawned := spawned w ++ [cmd];
                  disk := d |})
        | _, _ =>
            (Raise UnicodeDecodeError,
             {| printed := printed w ++ head;
                spawned := spawned w ++ [cmd];
                disk := d |})
        end
    | (SpawnFailed, _) =>
        (Raise OSError,
         {| printed := printed w ++ head;
            spawned := spawned w;
            disk := disk w |})
    end.
Proof.
  intros Hs out cmd head. subst head.
  unfold loop_body, create_short, lift, bind, print, subprocess_run, raise,
    ret.
  rewrite Hs. simpl. fold out. fold cmd.
  destruct (run_ffmpeg cmd (disk w)) as [[rc o err|] d]; simpl.
  - destruct (text_decode o) as [o'|], (text_decode err) as [err'|]; simpl;
      try by rewrite <- !app_assoc.
    case_bool_decide; simpl; by rewrite <- !app_assoc.
  - by rewrite <- !app_assoc.
Qed.


(** One pass through the loop body starts exactly one encoder, unless
    [int(sstart)] raises or the encoder cannot be started, and then none. *)
Lemma loop_body_cases video short_dur i sstart send w r w' :
  body video short_dur (i, (sstart, send)) w = (r, w') ->
  (exists e, sec_int sstart = Raise e /\ r = Raise e /\ w' = w)
  \/ (exists start rc raw_out raw_err d,
        sec_int sstart = Ok start
        /\ run_ffmpeg (job_cmd abspath video short_dur i start) (disk w)
           = (Exited rc raw_out raw_err, d)
        /\ spawned w' = spawned w ++ [job_cmd abspath video short_dur i start]
        /\ disk w' = d)
  \/ (exists start d,
        sec_int sstart = Ok start
        /\ run_ffmpeg (job_cmd abspath video short_dur i start) (disk w)
           = (SpawnFailed, d)
        /\ r = Raise OSError
        /\ spawned w' = spawned w
        /\ disk w' = disk w).
Proof.
  destruct (sec_int sstart) as [start|e] eqn:Hs.
  - rewrite (loop_body_unfold _ _ _ _ _ _ _ Hs). fold (short_path i).
    change (ffmpeg_cmd _ _ _ _) with (job_cmd abspath video short_dur i start).
    intros Hr. right.
    destruct (run_ffmpeg _ (disk w)) as [[rc o err|] d] eqn:Hrun.
    + left. exists start, rc, o, err, d. split; [done|]. split; [done|].
      destruct (text_decode o), (text_decode err);
        try case_bool_decide; by injection Hr as <- <-.
    + right. exists start, d. by injection Hr as <- <-.
  - unfold loop_body, bind, lift. rewrite Hs. intros [= <- <-].
    left. by exists e.
Qed.


(** Every encoder that a run of the loop starts is the job of the interval
    at the same position. *)
Lemma for_each_spawned video short_dur (l : list (T * T)) k w r w' :
  for_each (enumerate_from k l) (body video short_dur) w = (r, w') ->
  exists cmds,
    spawned w' = spawned w ++ cmds
    /\ (r = Ok tt -> length cmds = length l)
    /\ forall i cmd, cmds !! i = Some cmd ->
         exists sstart send start,
           l !! i = Some (sstart, send)
           /\ sec_int sstart = Ok start
           /\ cmd = job_cmd abspath video short_dur (k + i) start.
Proof.
  revert k w. induction l as [|[s e] l IH]; intros k w.
  - intros [= <- <-]. exists []. by rewrite app_nil_r.
  - rewrite enumerate_from_cons, for_each_cons. intros Hrun.
    destruct (body video short_dur (k, (s, e)) w) as [r1 w1] eqn:Hb.
    apply loop_body_cases in Hb
      as [(e' & Hs & -> & ->)
         |[(start & rc & o & err & d & Hs & _ & Hsp & _)
          |(start & d & Hs & _ & -> & Hsp & _)]].
    { injection Hrun as <- <-. exists []. by rewrite app_nil_r. }
    2:{ injection Hrun as <- <-. exists [].
        split; [by rewrite Hsp, app_nil_r|]. by split. }
    assert (forall i cmd (cmds : list (list string)),
      (forall i cmd, cmds !! i = Some cmd ->
         exists sstart send start,
           l !! i = Some (sstart, send)
           /\ sec_int sstart = Ok start
           /\ cmd = job_cmd abspath video short_dur (S k + i) start) ->
      (job_cmd abspath video short_dur k start :: cmds) !! i = Some cmd ->
      exists sstart send start0,
        ((s, e) :: l) !! i = Some (sstart, send)
        /\ sec_int sstart = Ok start0
        /\ cmd = job_cmd abspath video short_dur (k + i) start0) as Hcons.
    { intros [|i] cmd cmds Hcmds; simpl.
      - intros [= <-]. exists s, e, start. by rewrite Nat.add_0_r.
      - intros Hi. destruct (Hcmds i cmd Hi) as (s' & e' & st' & ? & ? & ->).
        exists s', e', st'. by rewrite Nat.add_succ_r. }
    destruct r1 as [[]|e'].
    + destruct (IH (S k) w1 Hrun) as (cmds & Hcmds & Hlen & Hall).
      exists (job_cmd abspath video short_dur k start :: cmds).
      split; [by rewrite Hcmds, Hsp, <- app_assoc|].
      split; [intros Hr; simpl; by rewrite Hlen|].
      intros i cmd. by apply Hcons.
    + injection Hrun as <- <-.
      exists [job_cmd abspath video short_dur k start].
      split; [done|]. split; [done|].
      intros i cmd. apply Hcons. by intros ? ?.
Qed.

(** The loop never looks at the end of an interval. *)
Lemma for_each_ignores_send video short_dur (l l' : list (T * T)) k w :
  l.*1 = l'.*1 ->
  for_each (enumerate_from k l) (body video short_dur) w
  = for_each (enumerate_from k l') (body video short_dur) w.
Proof.
  revert l' k w. induction l as [|[s e] l IH]; intros [|[s' e'] l'] k w;
    try done.
  intros [= <- Hl]. rewrite !enumerate_from_cons, !for_each_cons.
  change (body video short_dur (k, (s, e')) w)
    with (body video short_dur (k, (s, e)) w).
  destruct (body video short_dur (k, (s, e)) w) as [[[]|?] w1]; [|done].
  by apply IH.
Qed.

(** The first words of the command line of a job: the program, the seek
    offset, the input and the duration. *)
Lemma job_cmd_words video short_dur i start :
  take 7 (job_cmd abspath video short_dur i start)
  = ["ffmpeg"; "-ss"; str_of_int start; "-i"; abspath video;
     "-t"; str_of_int short_dur].
Proof. reflexivity. Qed.
End RenderFacts.

(** Differently numbered shorts have different names. *)

Lemma string_length_app (s1 s2 : string) :
  String.length (s1 +:+ s2) = (String.length s1 + String.length s2)%nat.
Proof.
  induction s1 as [|a s1 IH]; [done|].
  change (S (String.length (s1 +:+ s2))
          = S (String.length s1 + String.length s2)).
  by rewrite IH.
Qed.

Lemma string_app_inj_r (s1 s2 t : string) : s1 +:+ t = s2 +:+ t -> s1 = s2.
Proof.
  revert s2. induction s1 as [|a s1 IH]; intros [|b s2] Heq.
  - done.
  - apply (f_equal String.length) in Heq.
    rewrite !string_length_app in Heq. simpl in Heq. lia.
  - apply (f_equal String.length) in Heq.
    rewrite !string_length_app in Heq. simpl in Heq. lia.
  - change (String a (s1 +:+ t) = String b (s2 +:+ t)) in Heq.
    injection Heq as -> Heq. f_equal. by apply IH.
Qed.

Lemma format_02d_read_back (n : nat) :
  Nat.of_uint <$> NilEmpty.uint_of_string (format_02d n) = Some n.
Proof.
  unfold format_02d, zfill.
  pose proof (NilEmpty.usu (Nat.to_uint n)) as Hs.
  pose proof (Unsigned.of_to n) as Hn.
  destruct (String.length _) as [|[|k]]; vm_compute String.concat;
    repeat match goal with
           | |- context [String ?a ?s1 +:+ ?s2] =>
               change (String a s1 +:+ s2) with (String a (s1 +:+ s2))
           end;
    change ("" +:+ ?s) with s; simpl; rewrite Hs; simpl;
    by rewrite <- Hn at 2.
Qed.

Lemma short_path_inj (i j : nat) : short_path i = short_path j -> i = j.
Proof.
  unfold short_path, path_join. intros Heq.
  do 3 apply (inj (String.append _)) in Heq.
  apply string_app_inj_r in Heq.
  pose proof (format_02d_read_back (i + 1)) as Hi.
  rewrite Heq, format_02d_read_back in Hi.
  injection Hi as Hi. lia.
Qed.






Example main_loop_truncates_float_start :
  take 7 <$>
    spawned
      (main_loop Sample.ffmpeg_ok Sample.decode_7bit
         (Sample.abspath_in "/home/user")
         "in.mp4" 30 [(15.75, 45.5); (-3.5, 2)]%float Sample.empty_world).2
  = [["ffmpeg"; "-ss"; "15"; "-i"; "/home/user/in.mp4"; "-t"; "30"];
     ["ffmpeg"; "-ss"; "-3"; "-i"; "/home/user/in.mp4"; "-t"; "30"]].
Proof. reflexivity. Qed.

(** C10: every encoder that the loop starts is the job of the interval at
    the same position of the selection: its command line begins
    [ffmpeg -ss int(sstart) -i video -t short_dur], and ends in the path of
    the short with that number.  A run that goes through starts one job per
    selected interval.  The ends of the intervals play no part: a selection
    with the same starts and other ends gives the same run. *)
Theorem main_loop_jobs
    (run_ffmpeg : list string -> gmap string (list byte) ->
                  spawn_result (list byte) * gmap string (list byte))
    (text_decode : list byte -> option string)
    (abspath : string -> string) `{Seconds T}
    (video : string) (short_dur : Z) (chosen : list (T * T))
    (w : world) (r : result unit) (w' : world) :
  main_loop run_ffmpeg text_decode abspath video short_dur chosen w
  = (r, w') ->
  exists cmds : list (list string),
    spawned w' = spawned w ++ cmds
    /\ (r = Ok tt -> length cmds = length chosen)
    /\ (forall i cmd, cmds !! i = Some cmd ->
          exists sstart send start,
            chosen !! i = Some (sstart, send)
            /\ sec_int sstart = Ok start
            /\ take 7 cmd
               = ["ffmpeg"; "-ss"; str_of_int start; "-i"; abspath video;
                  "-t"; str_of_int short_dur]
            /\ last cmd = Some (abspath (abspath (short_path i))))
    /\ (forall chosen' : list (T * T),
          chosen'.*1 = chosen.*1 ->
          main_loop run_ffmpeg text_decode abspath video short_dur chosen' w
          = (r, w')).
Proof.
  unfold main_loop, enumerate. intros Hrun.
  destruct (for_each_spawned _ _ _ _ _ _ _ _ _ _ Hrun)
    as (cmds & Hspawned & Hlen & Hjobs).
  exists cmds. split; [done|]. split; [done|]. split.
  - intros i cmd Hcmd.
    destruct (Hjobs i cmd Hcmd) as (sstart & send & start & Hi & Hs & ->).
    by exists sstart, send, start.
  - intros chosen' Hstarts.
    by rewrite (for_each_ignores_send _ _ _ _ _ chosen' chosen).
Qed.

Lemma main_loop_jobs_witness :
  let abs := Sample.abspath_in "/home/user" in
  let run :=
    main_loop Sample.ffmpeg_ok Sample.decode_7bit abs "in.mp4" 30
      [(15.75, 45.5); (0.5, 10)]%float Sample.empty_world in
  run.1 = Ok tt
  /\ take 7 <$> spawned run.2
     = [["ffmpeg"; "-ss"; "15"; "-i"; "/home/user/in.mp4"; "-t"; "30"];
        ["ffmpeg"; "-ss"; "0"; "-i"; "/home/user/in.mp4"; "-t"; "30"]]
  /\ last <$> spawned run.2
     = [Some "/home/user/shorts/short_01.mp4";
        Some "/home/user/shorts/short_02.mp4"]
  /\ main_loop Sample.ffmpeg_ok Sample.decode_7bit abs "in.mp4" 30
       [(15.75, 16); (0.5, 100.25)]%float Sample.empty_world
     = (run.1, run.2).
Proof.
  intros abs run.
  destruct (main_loop_jobs Sample.ffmpeg_ok Sample.decode_7bit abs "in.mp4" 30
              [(15.75, 45.5); (0.5, 10)]%float Sample.empty_world run.1 run.2)
    as (cmds & Hspawned & Hlen & Hjobs & Hends); [apply surjective_pairing|].
  split; [reflexivity|].
  assert (cmds = spawned run.2) as -> by (by rewrite Hspawned).
  split.
  { destruct (Hjobs 0%nat _ eq_refl) as (s0 & e0 & st0 & [= <- <-] & [= <-] & H0 & _).
    destruct (Hjobs 1%nat _ eq_refl) as (s1 & e1 & st1 & [= <- <-] & [= <-] & H1 & _).
    change (take 7 <$> spawned run.2)
      with [take 7 (job_cmd abs "in.mp4" 30 0 15);
            take 7 (job_cmd abs "in.mp4" 30 1 0)].
    reflexivity. }
  split; [reflexivity|].
  apply (Hends [(15.75, 16); (0.5, 100.25)]%float). reflexivity.
Defined.

(** * Further properties *)

(** ** The selection as a part of its input *)

Section SortedPermutation.
Context {A K : Type} (lt : K -> K -> bool) (key : A -> K).

Lemma insert_stable_Permutation x l : insert_stable lt key x l ≡ₚ x :: l.
Proof.
  induction l as [|y l IH]; simpl; [done|].
  destruct (lt (key y) (key x)); [|done].
  rewrite IH. apply Permutation_swap.
Qed.

Lemma stable_sort_Permutation l : stable_sort lt key l ≡ₚ l.
Proof.
  induction l as [|x l IH]; simpl; [done|].
  by rewrite insert_stable_Permutation, IH.
Qed.

Lemma sorted_Permutation rev l : sorted lt key rev l ≡ₚ l.
Proof.
  destruct rev; simpl; [|apply stable_sort_Permutation].
  by rewrite reverse_Permutation, stable_sort_Permutation,
    reverse_Permutation.
Qed.
End SortedPermutation.

Lemma slice_stop_negative len n :
  n < 0 -> slice_stop len n = (len - Z.to_nat (- n))%nat.
Proof.
  intros Hn. unfold slice_stop. destruct (Z.ltb_spec n 0); lia.
Qed.

Lemma slice_stop_le len n : (slice_stop len n <= len)%nat.
Proof. unfold slice_stop. destruct (Z.ltb_spec n 0); lia. Qed.

(** X1: whatever the numbers and whatever [n], the selection invents and
    repeats nothing: it is a part of the input, as a multiset.  When [n] is
    at least the number of intervals, it is the whole input, rearranged. *)
Theorem pick_top_scenes_part_of_input `{Seconds T}
    (scenes : list (T * T)) (n : Z) :
  pick_top_scenes scenes n ⊆+ scenes
  /\ (Z.of_nat (length scenes) <= n -> pick_top_scenes scenes n ≡ₚ scenes).
Proof.
  rewrite pick_top_scenes_unfold. unfold slice_to. split.
  - etrans; [apply sublist_submseteq, sublist_take|].
    apply Permutation_submseteq, sorted_Permutation.
  - intros Hn. rewrite take_ge; [apply sorted_Permutation|].
    rewrite sorted_length, slice_stop_nonneg by lia. lia.
Qed.

Lemma pick_top_scenes_part_of_input_witness :
  pick_top_scenes [(0, 10); (10, 15); (15, 45)] 7
  ≡ₚ [(0, 10); (10, 15); (15, 45)].
Proof. apply pick_top_scenes_part_of_input. simpl. lia. Defined.

Lemma pick_top_scenes_rest `{SecondsOrder T} (scenes : list (T * T)) (n : Z) :
  exists rest,
    scenes ≡ₚ pick_top_scenes scenes n ++ rest
    /\ forall a b,
         a ∈ pick_top_scenes scenes n -> b ∈ rest ->
         sec_ge (scene_key a) (scene_key b) = true.
Proof.
  rewrite pick_top_scenes_unfold. unfold slice_to.
  set (l := sorted sec_lt scene_key true scenes).
  set (m := slice_stop (length l) n).
  exists (drop m l). split.
  - by rewrite take_drop; unfold l; rewrite sorted_Permutation.
  - intros a b Ha Hb. rewrite sec_ge_not_lt.
    assert (StronglySorted (flip (key_le sec_lt scene_key)) l) as Hl.
    { apply sorted_reverse_descending;
        [apply sec_lt_irrefl | apply sec_lt_trans | apply sec_lt_negtrans]. }
    rewrite <- (take_drop m l) in Hl.
    pose proof (StronglySorted_app_1_elem_of _ _ _ a b Hl Ha Hb) as Hab.
    unfold flip, key_le in Hab. by rewrite Hab.
Qed.

(** X2: the selection is made of the longest intervals: the input is the
    selection together with a rest, and no interval of the rest is longer
    than a selected one. *)
Theorem pick_top_scenes_longest `{SecondsOrder T}
    (scenes : list (T * T)) (n : Z) :
  exists rest,
    scenes ≡ₚ pick_top_scenes scenes n ++ rest
    /\ forall a b,
         a ∈ pick_top_scenes scenes n -> b ∈ rest ->
         sec_ge (scene_key a) (scene_key b) = true.
Proof. apply pick_top_scenes_rest. Qed.

Lemma pick_top_scenes_longest_witness :
  exists rest,
    [(0, 10); (10, 15); (15, 45)]
    ≡ₚ pick_top_scenes [(0, 10); (10, 15); (15, 45)] 2 ++ rest
    /\ forall a b,
         a ∈ pick_top_scenes [(0, 10); (10, 15); (15, 45)] 2 -> b ∈ rest ->
         sec_ge (scene_key a) (scene_key b) = true.
Proof. apply (pick_top_scenes_longest [(0, 10); (10, 15); (15, 45)] 2). Defined.

(** X3: asking for more shorts keeps the ones already chosen, in the same
    places: for [0 <= n <= m] the selection of [n] is the beginning of the
    selection of [m]. *)
Theorem pick_top_scenes_grows `{Seconds T} (scenes : list (T * T)) (n m : Z) :
  0 <= n <= m ->
  pick_top_scenes scenes n `prefix_of` pick_top_scenes scenes m.
Proof.
  intros Hnm. rewrite !pick_top_scenes_unfold. unfold slice_to.
  set (l := sorted sec_lt scene_key true scenes).
  rewrite !slice_stop_nonneg by lia.
  replace (Z.to_nat n `min` length l)%nat
    with ((Z.to_nat n `min` length l) `min` (Z.to_nat m `min` length l))%nat
    by lia.
  rewrite <- take_take. apply prefix_take.
Qed.

Lemma pick_top_scenes_grows_witness :
  pick_top_scenes [(0, 10); (10, 15); (15, 45)] 1
  `prefix_of` pick_top_scenes [(0, 10); (10, 15); (15, 45)] 2.
Proof. apply pick_top_scenes_grows. lia. Defined.

(** X4: with a negative [n] the selection drops the last [-n] intervals of
    the sorted list, the shortest ones: it has [max(0, len + n)] elements,
    and none of them is shorter than a dropped one. *)
Theorem pick_top_scenes_negative_n `{SecondsOrder T}
    (scenes : list (T * T)) (n : Z) :
  n < 0 ->
  Z.of_nat (length (pick_top_scenes scenes n))
  = Z.max 0 (Z.of_nat (length scenes) + n)
  /\ exists dropped,
       scenes ≡ₚ pick_top_scenes scenes n ++ dropped
       /\ Z.of_nat (length dropped) = Z.min (- n) (Z.of_nat (length scenes))
       /\ forall a b,
            a ∈ pick_top_scenes scenes n -> b ∈ dropped ->
            sec_ge (scene_key a) (scene_key b) = true.
Proof.
  intros Hn.
  destruct (pick_top_scenes_rest scenes n) as (rest & Hperm & Hge).
  assert (Z.of_nat (length (pick_top_scenes scenes n))
          = Z.max 0 (Z.of_nat (length scenes) + n)) as Hlen.
  { rewrite pick_top_scenes_unfold. unfold slice_to.
    rewrite length_take, sorted_length, slice_stop_negative by done. lia. }
  split; [done|]. exists rest. split; [done|]. split; [|done].
  apply Permutation_length in Hperm. rewrite length_app in Hperm. lia.
Qed.

Lemma pick_top_scenes_negative_n_witness :
  Z.of_nat (length (pick_top_scenes [(0, 10); (10, 15); (15, 45)] (-1)))
  = Z.max 0 (Z.of_nat (length [(0, 10); (10, 15); (15, 45)]) + -1).
Proof.
  apply (pick_top_scenes_negative_n [(0, 10); (10, 15); (15, 45)] (-1)). lia.
Defined.

(** X5: selecting [n] out of a selection of [m >= n] is selecting [n] out of
    the input. *)
Theorem pick_top_scenes_twice `{SecondsOrder T}
    (scenes : list (T * T)) (n m : Z) :
  0 <= n <= m ->
  pick_top_scenes (pick_top_scenes scenes m) n = pick_top_scenes scenes n.
Proof.
  intros Hnm.
  rewrite (pick_top_scenes_unfold (pick_top_scenes scenes m)).
  rewrite sorted_reverse_descending_id by apply pick_top_scenes_sorted.
  rewrite !pick_top_scenes_unfold. unfold slice_to.
  set (l := sorted sec_lt scene_key true scenes).
  rewrite take_take, length_take, !slice_stop_nonneg by lia.
  f_equal. lia.
Qed.

Lemma pick_top_scenes_twice_witness :
  pick_top_scenes (pick_top_scenes [(0, 10); (10, 15); (15, 45)] 2) 1
  = pick_top_scenes [(0, 10); (10, 15); (15, 45)] 1.
Proof. apply pick_top_scenes_twice. lia. Defined.

(** ** The fallback segmenter *)

Lemma range_lookup_Some n i k : range n !! i = Some k -> k = Z.of_nat i /\ k < n.
Proof.
  unfold range. change (map Z.of_nat ?l) with (Z.of_nat <$> l).
  rewrite list_lookup_fmap. intros Hk.
  destruct (seq 0 (Z.to_nat n) !! i) as [j|] eqn:Hj; [|done].
  apply lookup_seq in Hj as [-> Hi]. injection Hk as <-. lia.
Qed.

Lemma StronglySorted_lookup_intro {A} (R : relation A) l :
  (forall i j a b, (i < j)%nat -> l !! i = Some a -> l !! j = Some b -> R a b) ->
  StronglySorted R l.
Proof.
  induction l as [|x l IH]; intros Hl; constructor.
  - apply IH. intros i j a b Hij Ha Hb. by apply (Hl (S i) (S j)); [lia|..].
  - apply Forall_lookup. intros j b Hb. by apply (Hl 0%nat (S j)); [lia|..].
Qed.

Lemma is_nan_Prim2SF f : is_nan f = true -> Prim2SF f = S754_nan.
Proof.
  unfold is_nan. rewrite FloatAxioms.eqb_spec. unfold SFeqb, SFcompare.
  destruct (Prim2SF f) as [s|[]| |[] m e]; try done;
    rewrite Z.compare_refl;
    change (Pos.compare_cont Eq m m) with (Pos.compare m m);
    by rewrite Pos.compare_refl.
Qed.

(** X6: the fallback intervals keep to their places: with a clip length
    that is not negative, each interval ends no later than the next one
    starts, no later than the total duration, and is no longer than the clip
    length. *)
Theorem make_sequential_scenes_no_overlap
    (run_ffprobe : list string -> spawn_result (list byte))
    (bytes_decode : list byte -> option string)
    (str_strip : string -> string)
    (float_of_str : string -> option float)
    (path : string) (n clip_len : Z) (seconds : float) (total : Z)
    (scenes : list (Z * Z)) (i : nat) (s e : Z) :
  0 <= clip_len ->
  get_video_length_seconds run_ffprobe bytes_decode str_strip float_of_str path
  = Ok seconds ->
  int_of_float seconds = Ok total ->
  make_sequential_scenes run_ffprobe bytes_decode str_strip float_of_str
    path n clip_len = Ok scenes ->
  scenes !! i = Some (s, e) ->
  e <= total /\ e - s <= clip_len
  /\ forall s' e', scenes !! S i = Some (s', e') -> e <= s' /\ s <= s'.
Proof.
  intros Hc Hp Ht Hs Hi.
  rewrite (fallback_unfold _ _ _ _ _ _ _ _ _ Hp Ht) in Hs.
  injection Hs as <-. rewrite list_lookup_fmap in Hi.
  destruct (range n !! i) as [k|] eqn:Hk; simpl in Hi; [|done].
  injection Hi as <- <-. apply range_lookup_Some in Hk as [-> _].
  split; [lia|]. split; [lia|].
  intros s' e'. rewrite list_lookup_fmap.
  destruct (range n !! S i) as [k'|] eqn:Hk'; simpl; [|done].
  intros [= <- <-]. apply range_lookup_Some in Hk' as [-> _]. nia.
Qed.

Lemma make_sequential_scenes_no_overlap_witness :
  60 <= 100 /\ 60 - 30 <= 30
  /\ forall s' e',
       [(0, 30); (30, 60); (60, 90)] !! 2%nat = Some (s', e') ->
       60 <= s' /\ 30 <= s'.
Proof.
  apply (make_sequential_scenes_no_overlap Sample.ffprobe_ok
           Sample.decode_ascii Sample.strip_id (Sample.float_always 100.5)
           "video.mp4" 3 30 100.5%float 100 [(0, 30); (30, 60); (60, 90)]
           1%nat 30 60);
    [lia | reflexivity | reflexivity | reflexivity | reflexivity].
Defined.

(** X7: the handler of the probe does not cover [int(...)]: the fallback
    returns a list exactly when the probed duration is finite, and raises
    [ValueError] on a NaN and [OverflowError] on an infinity. *)
Theorem make_sequential_scenes_raises
    (run_ffprobe : list string -> spawn_result (list byte))
    (bytes_decode : list byte -> option string)
    (str_strip : string -> string)
    (float_of_str : string -> option float)
    (path : string) (n clip_len : Z) (seconds : float) :
  get_video_length_seconds run_ffprobe bytes_decode str_strip float_of_str path
  = Ok seconds ->
  let fallback :=
    make_sequential_scenes run_ffprobe bytes_decode str_strip float_of_str
      path n clip_len in
  (is_finite seconds = true -> exists scenes, fallback = Ok scenes)
  /\ (is_nan seconds = true -> fallback = Raise ValueError)
  /\ (is_infinity seconds = true -> fallback = Raise OverflowError).
Proof.
  intros Hp fallback. subst fallback. unfold make_sequential_scenes.
  rewrite Hp. simpl. unfold int_of_float. repeat split.
  - intros Hf. apply is_finite_Prim2SF in Hf.
    destruct (Prim2SF seconds); try done; by eexists.
  - intros Hf. by rewrite (is_nan_Prim2SF _ Hf).
  - intros Hf. unfold is_infinity in Hf.
    rewrite FloatAxioms.eqb_spec, abs_spec in Hf.
    change (Prim2SF infinity) with (S754_infinity false) in Hf.
    unfold SFeqb, SFcompare in Hf.
    by destruct (Prim2SF seconds) as [s|s| |s m e].
Qed.

Lemma make_sequential_scenes_raises_witness :
  make_sequential_scenes Sample.ffprobe_ok Sample.decode_ascii
    Sample.strip_id (Sample.float_always nan) "video.mp4" 3 30
  = Raise ValueError
  /\ make_sequential_scenes Sample.ffprobe_ok Sample.decode_ascii
       Sample.strip_id (Sample.float_always infinity) "video.mp4" 3 30
     = Raise OverflowError.
Proof.
  split.
  - apply (make_sequential_scenes_raises Sample.ffprobe_ok Sample.decode_ascii
             Sample.strip_id (Sample.float_always nan) "video.mp4" 3 30 nan);
      reflexivity.
  - apply (make_sequential_scenes_raises Sample.ffprobe_ok Sample.decode_ascii
             Sample.strip_id (Sample.float_always infinity) "video.mp4" 3 30
             infinity);
      reflexivity.
Defined.

Lemma fallback_descending n clip_len total :
  0 <= clip_len ->
  StronglySorted (flip (key_le (sec_lt (T := Z)) scene_key))
    ((fun i => (i * clip_len, Z.min (i * clip_len + clip_len) total))
       <$> range n).
Proof.
  intros Hc. apply StronglySorted_lookup_intro. intros i j a b Hij.
  rewrite !list_lookup_fmap.
  destruct (range n !! i) as [k|] eqn:Hk; simpl; [|done].
  destruct (range n !! j) as [k'|] eqn:Hk'; simpl; [|done].
  apply range_lookup_Some in Hk as [-> _], Hk' as [-> _].
  intros [= <-] [= <-]. unfold flip, key_le, scene_key. simpl.
  apply Z.ltb_ge. nia.
Qed.

Lemma fallback_shape
    (run_ffprobe : list string -> spawn_result (list byte))
    (bytes_decode : list byte -> option string)
    (str_strip : string -> string)
    (float_of_str : string -> option float)
    (path : string) (n clip_len : Z) (scenes : list (Z * Z)) :
  make_sequential_scenes run_ffprobe bytes_decode str_strip float_of_str
    path n clip_len = Ok scenes ->
  exists total,
    scenes
    = (fun i => (i * clip_len, Z.min (i * clip_len + clip_len) total))
        <$> range n.
Proof.
  intros Hs. unfold make_sequential_scenes in Hs.
  destruct (get_video_length_seconds _ _ _ _ _) as [seconds|]; [|done].
  simpl in Hs. destruct (int_of_float seconds) as [total|]; [|done].
  simpl in Hs. injection Hs as <-. exists total. by rewrite map_map.
Qed.

Lemma fallback_selected_unchanged n clip_len total :
  0 <= n -> 0 <= clip_len ->
  let scenes :=
    (fun i => (i * clip_len, Z.min (i * clip_len + clip_len) total))
      <$> range n in
  pick_top_scenes scenes n = scenes.
Proof.
  intros Hn Hc scenes. rewrite pick_top_scenes_unfold.
  rewrite sorted_reverse_descending_id by by apply fallback_descending.
  unfold slice_to. apply take_ge. unfold scenes.
  rewrite slice_stop_nonneg, length_fmap, range_length by done. lia.
Qed.

(** X8: the fallback list is already in selection order.  With a count and
    a clip length that are not negative, selecting [n] out of the [n]
    fallback intervals returns them as they are, in sequence. *)
Theorem pick_top_scenes_of_fallback
    (run_ffprobe : list string -> spawn_result (list byte))
    (bytes_decode : list byte -> option string)
    (str_strip : string -> string)
    (float_of_str : string -> option float)
    (path : string) (n clip_len : Z) (scenes : list (Z * Z)) :
  0 <= n -> 0 <= clip_len ->
  make_sequential_scenes run_ffprobe bytes_decode str_strip float_of_str
    path n clip_len = Ok scenes ->
  pick_top_scenes scenes n = scenes.
Proof.
  intros Hn Hc Hs. apply fallback_shape in Hs as [total ->].
  by apply fallback_selected_unchanged.
Qed.

Lemma pick_top_scenes_of_fallback_witness :
  pick_top_scenes [(0, 30); (30, 60); (60, 70)] 3
  = [(0, 30); (30, 60); (60, 70)].
Proof.
  apply (pick_top_scenes_of_fallback Sample.ffprobe_ok Sample.decode_ascii
           Sample.strip_id (Sample.float_always 70.5) "video.mp4" 3 30);
    [lia | lia | reflexivity].
Defined.

(** ** Rendering *)

Section RenderMore.
Variable run_ffmpeg :
  list string -> gmap string (list byte) ->
  spawn_result (list byte) * gmap string (list byte).
Variable text_decode : list byte -> option string.
Variable abspath : string -> string.
Context `{Seconds T}.




Lemma for_each_spawned_le video short_dur (l : list (T * T)) k w r w' :
  for_each (enumerate_from k l)
    (loop_body run_ffmpeg text_decode abspath video short_dur) w = (r, w') ->
  (length (spawned w) <= length (spawned w') <= length (spawned w) + length l)%nat.
Proof.
  intros Hrun.
  destruct (for_each_spawned _ _ _ _ _ _ _ _ _ _ Hrun)
    as (cmds & -> & _ & Hjobs).
  rewrite length_app. split; [lia|].
  destruct (decide (length cmds = 0%nat)) as [->|Hne]; [lia|].
  destruct (lookup_lt_is_Some_2 cmds (length cmds - 1)) as [cmd Hcmd]; [lia|].
  destruct (Hjobs _ _ Hcmd) as (s & e & start & Hl & _).
  apply lookup_lt_Some in Hl. lia.
Qed.
End RenderMore.






(** X11: when [int(sstart)] raises for some interval (a NaN or an infinite
    start), the loop stops there with that exception: nothing is printed and
    no encoder is started for this interval or for the ones after it. *)
Theorem main_loop_stops_at_int_failure
    (run_ffmpeg : list string -> gmap string (list byte) ->
                  spawn_result (list byte) * gmap string (list byte))
    (text_decode : list byte -> option string)
    (abspath : string -> string) `{Seconds T}
    (video : string) (short_dur : Z)
    (before : list (T * T)) (sstart send : T) (after : list (T * T))
    (w0 w1 : world) (e : exn) :
  main_loop run_ffmpeg text_decode abspath video short_dur before w0
  = (Ok tt, w1) ->
  sec_int sstart = Raise e ->
  main_loop run_ffmpeg text_decode abspath video short_dur
    (before ++ (sstart, send) :: after) w0
  = (Raise e, w1).
Proof.
  unfold main_loop, enumerate. intros Hbefore Hs.
  rewrite enumerate_from_app, for_each_app, Hbefore.
  rewrite enumerate_from_cons, for_each_cons.
  unfold loop_body, bind, lift. by rewrite Hs.
Qed.

Lemma main_loop_stops_at_int_failure_witness :
  let run :=
    main_loop Sample.ffmpeg_ok Sample.decode_7bit
      (Sample.abspath_in "/home/user") "in.mp4" 30
      [(15, 45)]%float Sample.empty_world in
  main_loop Sample.ffmpeg_ok Sample.decode_7bit
    (Sample.abspath_in "/home/user") "in.mp4" 30
    [(15, 45); (nan, 50); (60, 70)]%float Sample.empty_world
  = (Raise ValueError, run.2).
Proof.
  intros run.
  apply (main_loop_stops_at_int_failure Sample.ffmpeg_ok Sample.decode_7bit
           (Sample.abspath_in "/home/user") "in.mp4" 30
           [(15, 45)]%float nan 50%float [(60, 70)]%float
           Sample.empty_world run.2 ValueError);
    reflexivity.
Defined.

(** X12: selection and loop together never start more encoders than the
    requested count [n >= 0], nor more than there are intervals, however the
    run ends. *)
Theorem render_jobs_bounded
    (run_ffmpeg : list string -> gmap string (list byte) ->
                  spawn_result (list byte) * gmap string (list byte))
    (text_decode : list byte -> option string)
    (abspath : string -> string) `{Seconds T}
    (video : string) (short_dur : Z) (scenes : list (T * T)) (n : Z)
    (w : world) (r : result unit) (w' : world) :
  0 <= n ->
  main_loop run_ffmpeg text_decode abspath video short_dur
    (pick_top_scenes scenes n) w
  = (r, w') ->
  (length (spawned w') <= length (spawned w) + Z.to_nat n)%nat
  /\ (length (spawned w') <= length (spawned w) + length scenes)%nat.
Proof.
  intros Hn Hrun. apply for_each_spawned_le in Hrun.
  rewrite pick_top_scenes_length_min in Hrun by done. lia.
Qed.

Lemma render_jobs_bounded_witness :
  let run :=
    main_loop Sample.ffmpeg_ok Sample.decode_7bit
      (Sample.abspath_in "/home/user") "in.mp4" 30
      (pick_top_scenes [(0, 10); (10, 15); (15, 45)] 2) Sample.empty_world in
  (length (spawned run.2) <= 0 + 2)%nat
  /\ (length (spawned run.2) <= 0 + 3)%nat.
Proof.
  intros run.
  apply (render_jobs_bounded Sample.ffmpeg_ok Sample.decode_7bit
           (Sample.abspath_in "/home/user")
           "in.mp4" 30 [(0, 10); (10, 15); (15, 45)] 2 Sample.empty_world
           run.1 run.2);
    [lia | reflexivity].
Defined.

(** The jobs of the fallback intervals: the [i]-th seeks to
    [i * short_dur]. *)
Lemma fallback_jobs
    (run_ffmpeg : list string -> gmap string (list byte) ->
                  spawn_result (list byte) * gmap string (list byte))
    (text_decode : list byte -> option string)
    (abspath : string -> string)
    (video : string) (n short_dur total : Z)
    (w : world) (r : result unit) (w' : world) :
  0 <= n -> 0 <= short_dur ->
  main_loop run_ffmpeg text_decode abspath video short_dur
    (pick_top_scenes
       ((fun i => (i * short_dur, Z.min (i * short_dur + short_dur) total))
        <$> range n) n) w
  = (r, w') ->
  exists cmds,
    spawned w' = spawned w ++ cmds
    /\ (r = Ok tt -> Z.of_nat (length cmds) = n)
    /\ forall i cmd,
         cmds !! i = Some cmd ->
         cmd = job_cmd abspath video short_dur i (Z.of_nat i * short_dur).
Proof.
  intros Hn Hc Hrun.
  rewrite fallback_selected_unchanged in Hrun by done.
  unfold main_loop, enumerate in Hrun.
  destruct (for_each_spawned _ _ _ _ _ _ _ _ _ _ Hrun)
    as (cmds & Hspawned & Hlen & Hjobs).
  exists cmds. split; [done|]. split.
  - intros Hr. rewrite (Hlen Hr), length_fmap, range_length. lia.
  - intros i cmd Hcmd.
    destruct (Hjobs i cmd Hcmd) as (s & e & start & Hi & Hint & ->).
    rewrite list_lookup_fmap in Hi.
    destruct (range n !! i) as [k|] eqn:Hk; simpl in Hi; [|done].
    apply range_lookup_Some in Hk as [-> _].
    injection Hi as <- <-. simpl in Hint. by injection Hint as <-.
Qed.

(** X13: on the fallback path, where the clip length is both the spacing of
    the intervals and the duration of each short, the encoders are started
    in sequence: the command line of the [i]-th one (from 0) begins
    [ffmpeg -ss (i * short_dur) -i video -t short_dur] and ends in the path
    of the short numbered [i + 1]. *)
Theorem fallback_jobs_in_sequence
    (run_ffprobe : list string -> spawn_result (list byte))
    (bytes_decode : list byte -> option string)
    (str_strip : string -> string)
    (float_of_str : string -> option float)
    (run_ffmpeg : list string -> gmap string (list byte) ->
                  spawn_result (list byte) * gmap string (list byte))
    (text_decode : list byte -> option string)
    (abspath : string -> string)
    (video : string) (n short_dur : Z) (scenes : list (Z * Z))
    (w : world) (r : result unit) (w' : world) :
  0 <= n -> 0 <= short_dur ->
  make_sequential_scenes run_ffprobe bytes_decode str_strip float_of_str
    video n short_dur = Ok scenes ->
  main_loop run_ffmpeg text_decode abspath video short_dur
    (pick_top_scenes scenes n) w
  = (r, w') ->
  exists cmds,
    spawned w' = spawned w ++ cmds
    /\ (r = Ok tt -> Z.of_nat (length cmds) = n)
    /\ forall i cmd,
         cmds !! i = Some cmd ->
         take 7 cmd
         = ["ffmpeg"; "-ss"; str_of_int (Z.of_nat i * short_dur);
            "-i"; abspath video; "-t"; str_of_int short_dur]
         /\ last cmd = Some (abspath (abspath (short_path i))).
Proof.
  intros Hn Hc Hs Hrun. apply fallback_shape in Hs as [total ->].
  destruct (fallback_jobs _ _ _ _ _ _ _ _ _ _ Hn Hc Hrun)
    as (cmds & Hspawned & Hlen & Hjobs).
  exists cmds. split; [done|]. split; [done|].
  intros i cmd Hcmd. by rewrite (Hjobs i cmd Hcmd).
Qed.

Lemma fallback_jobs_in_sequence_witness :
  let abs := Sample.abspath_in "/home/user" in
  let run :=
    main_loop Sample.ffmpeg_ok Sample.decode_7bit abs "video.mp4" 30
      (pick_top_scenes [(0, 30); (30, 60); (60, 70)] 3) Sample.empty_world in
  (exists cmds,
     spawned run.2 = spawned Sample.empty_world ++ cmds
     /\ (run.1 = Ok tt -> Z.of_nat (length cmds) = 3)
     /\ forall i cmd,
          cmds !! i = Some cmd ->
          take 7 cmd
          = ["ffmpeg"; "-ss"; str_of_int (Z.of_nat i * 30);
             "-i"; abs "video.mp4"; "-t"; str_of_int 30]
          /\ last cmd = Some (abs (abs (short_path i))))
  /\ take 7 <$> spawned run.2
     = [["ffmpeg"; "-ss"; "0"; "-i"; "/home/user/video.mp4"; "-t"; "30"];
        ["ffmpeg"; "-ss"; "30"; "-i"; "/home/user/video.mp4"; "-t"; "30"];
        ["ffmpeg"; "-ss"; "60"; "-i"; "/home/user/video.mp4"; "-t"; "30"]]
  /\ last <$> spawned run.2
     = [Some "/home/user/shorts/short_01.mp4";
        Some "/home/user/shorts/short_02.mp4";
        Some "/home/user/shorts/short_03.mp4"].
Proof.
  intros abs run. split.
  - apply (fallback_jobs_in_sequence Sample.ffprobe_ok Sample.decode_ascii
             Sample.strip_id (Sample.float_always 70.5) Sample.ffmpeg_ok
             Sample.decode_7bit abs "video.mp4" 3 30
             [(0, 30); (30, 60); (60, 70)] Sample.empty_world run.1 run.2);
      [lia | lia | vm_compute; reflexivity | apply surjective_pairing].
  - split; vm_compute; reflexivity.
Defined.

(** X14: differently placed intervals are written to differently named
    files, however many there are: the names [short_01.mp4],
    [short_02.mp4], ... never repeat, also past [short_99.mp4]. *)
Theorem short_names_never_repeat (i j : nat) :
  i <> j -> short_path i <> short_path j.
Proof. intros Hij Heq. by apply Hij, short_path_inj. Qed.

Lemma short_names_never_repeat_witness : short_path 8 <> short_path 98.
Proof. apply short_names_never_repeat. lia. Defined.

Example short_path_samples :
  short_path 0 = "shorts/short_01.mp4"
  /\ short_path 8 = "shorts/short_09.mp4"
  /\ short_path 9 = "shorts/short_10.mp4"
  /\ short_path 99 = "shorts/short_100.mp4".
Proof. repeat split; reflexivity. Qed.

(** ** Download *)

Lemma finite_not_nan (t : finite_float) : Prim2SF (proj1_sig t) <> S754_nan.
Proof.
  destruct t as [t Ht]. simpl. apply is_finite_Prim2SF in Ht.
  by destruct (Prim2SF t).
Qed.

Lemma mtime_lt_irrefl (x : finite_float * string) :
  PrimFloat.ltb (mtime_key x) (mtime_key x) = false.
Proof. rewrite ltb_spec. apply SFltb_irrefl. Qed.

Lemma mtime_lt_trans (x y z : finite_float * string) :
  PrimFloat.ltb (mtime_key x) (mtime_key y) = true ->
  PrimFloat.ltb (mtime_key y) (mtime_key z) = true ->
  PrimFloat.ltb (mtime_key x) (mtime_key z) = true.
Proof. rewrite !ltb_spec. apply SFltb_trans. Qed.

Lemma mtime_lt_negtrans (x y z : finite_float * string) :
  PrimFloat.ltb (mtime_key x) (mtime_key y) = false ->
  PrimFloat.ltb (mtime_key y) (mtime_key z) = false ->
  PrimFloat.ltb (mtime_key x) (mtime_key z) = false.
Proof. rewrite !ltb_spec. apply SFltb_negtrans, finite_not_nan. Qed.

Lemma mtime_not_lt_leb (x y : finite_float * string) :
  PrimFloat.ltb (mtime_key y) (mtime_key x) = false ->
  PrimFloat.leb (mtime_key x) (mtime_key y) = true.
Proof.
  intros Hyx. rewrite leb_spec, SFleb_not_SFltb, <- ltb_spec, Hyx;
    [done | apply finite_not_nan | apply finite_not_nan].
Qed.

(** The last element of a list in ascending order is a greatest one. *)
Lemma last_of_ascending (l : list (finite_float * string)) x :
  StronglySorted (key_le PrimFloat.ltb mtime_key) l ->
  last l = Some x ->
  forall y, y ∈ l -> PrimFloat.leb (mtime_key y) (mtime_key x) = true.
Proof.
  intros Hl Hx y Hy. apply last_Some in Hx as [l' ->].
  apply elem_of_app in Hy as [Hy|Hy].
  - apply mtime_not_lt_leb.
    apply (StronglySorted_app_1_elem_of _ _ _ y x Hl Hy). by left.
  - apply list_elem_of_singleton in Hy as ->.
    apply mtime_not_lt_leb, mtime_lt_irrefl.
Qed.

Section DownloadFacts.
Variable makedirs : string -> gmap string (list byte) ->
                    option (gmap string (list byte)).
Variable listdir : gmap string (list byte) -> string -> option (list string).
Variable getmtime : gmap string (list byte) -> string -> option finite_float.
Variable abspath : string -> string.
Variable sys_executable : string.
Variable run_ytdlp :
  list string -> gmap string (list byte) ->
  spawn_result unit * gmap string (list byte).

Lemma with_mtime_Return files s keyed s' :
  with_mtime getmtime files s = (Return keyed, s') ->
  s' = s /\ keyed.*2 = files
  /\ Forall (fun tf => getmtime (disk (now s)) tf.2 = Some tf.1) keyed.
Proof.
  revert keyed s'. induction files as [|f files IH]; intros keyed s'; simpl.
  - intros [= <- <-]. by repeat split.
  - unfold sbind at 1.
    destruct (getmtime (disk (now s)) f) as [t|] eqn:Ht; [|done].
    unfold sbind at 1.
    destruct (with_mtime getmtime files s) as [[rest|e] s1] eqn:Hrest; [|done].
    destruct (IH rest s1 eq_refl) as (-> & Hfiles & Hall).
    unfold sret. intros [= <- <-]. repeat split.
    + rewrite fmap_cons. simpl. by f_equal.
    + by constructor.
Qed.


(** [download], by what becomes of yt-dlp. *)
Lemma download_unfold url s :
  let cmd := ytdlp_cmd sys_executable url in
  download makedirs listdir getmtime abspath sys_executable run_ytdlp url s
  = match makedirs "downloads" (disk (now s)) with
    | None => (Throw (Known OSError), s)
    | Some d1 =>
        match run_ytdlp cmd d1 with
        | (SpawnFailed, _) =>
            (Throw (Known OSError),
             {| stdin := stdin s; prompts := prompts s;
                now := {| printed :=
                            printed (now s) ++ ["Downloading video..."];
                          spawned := spawned (now s);
                          disk := d1 |} |})
        | (Exited rc _ _, d2) =>
            let s2 :=
              {| stdin := stdin s; prompts := prompts s;
                 now := {| printed :=
                             printed (now s) ++ ["Downloading video..."];
                           spawned := spawned (now s) ++ [cmd];
                           disk := d2 |} |} in
            if bool_decide (rc = 0) then
              match listdir d2 "downloads" with
              | None => (Throw (Known OSError), s2)
              | Some names =>
                  match with_mtime getmtime
                          (map (path_join "downloads") names) s2 with
                  | (Throw e, s3) => (Throw e, s3)
                  | (Return keyed, s3) =>
                      match last (map snd
                                    (sorted PrimFloat.ltb mtime_key false
                                       keyed))
                      with
                      | Some latest => (Return (abspath latest), s3)
                      | None => (Throw IndexError, s3)
                      end
                  end
              end
            else (Throw (Known (CalledProcessError rc cmd)), s2)
        end
    end.
Proof.
  intros cmd. unfold download. fold cmd.
  unfold sbind at 1. unfold os_makedirs.
  destruct (makedirs "downloads" (disk (now s))) as [d1|]; [|done].
  unfold sbind at 1. unfold of_M, print. simpl.
  unfold sbind at 1. simpl.
  destruct (run_ytdlp cmd d1) as [[rc [] []|] d2]; unfold of_result; simpl;
    [|done].
  case_bool_decide; [|done].
  unfold sbind at 1. unfold os_listdir. simpl.
  destruct (listdir d2 "downloads") as [names|]; [|done].
  unfold sbind at 1.
  destruct (with_mtime _ _ _) as [[keyed|e] s3]; [|done].
  unfold sbind, last_item.
  by destruct (last _).
Qed.
End DownloadFacts.

(** X15: what [download] returns is the absolute path of an entry of the
    [downloads] directory whose modification time is the greatest there, as
    the directory stands after yt-dlp has run: the newest file, whether or
    not it is the one just downloaded.  yt-dlp is the one process started. *)
Theorem download_returns_newest
    (makedirs : string -> gmap string (list byte) ->
                option (gmap string (list byte)))
    (listdir : gmap string (list byte) -> string -> option (list string))
    (getmtime : gmap string (list byte) -> string -> option finite_float)
    (abspath : string -> string) (sys_executable : string)
    (run_ytdlp : list string -> gmap string (list byte) ->
                 spawn_result unit * gmap string (list byte))
    (url : string) (s : session) (p : string) (s' : session) :
  download makedirs listdir getmtime abspath sys_executable run_ytdlp url s
  = (Return p, s') ->
  spawned (now s') = spawned (now s) ++ [ytdlp_cmd sys_executable url]
  /\ exists names f t,
       listdir (disk (now s')) "downloads" = Some names
       /\ f ∈ names
       /\ p = abspath (path_join "downloads" f)
       /\ getmtime (disk (now s')) (path_join "downloads" f) = Some t
       /\ forall f' t',
            f' ∈ names ->
            getmtime (disk (now s')) (path_join "downloads" f') = Some t' ->
            PrimFloat.leb (proj1_sig t') (proj1_sig t) = true.
Proof.
  rewrite download_unfold.
  destruct (makedirs "downloads" (disk (now s))) as [d1|]; [|done].
  destruct (run_ytdlp _ d1) as [[rc o e|] d2]; [|done]. cbv zeta.
  case_bool_decide; [|done].
  destruct (listdir d2 "downloads") as [names|] eqn:Hnames; [|done].
  destruct (with_mtime getmtime _ _) as [[keyed|e'] s3] eqn:Hkeyed; [|done].
  apply with_mtime_Return in Hkeyed as (-> & Hfiles & Hall). simpl in Hall.
  set (l := sorted PrimFloat.ltb mtime_key false keyed).
  change (map snd l) with (l.*2). rewrite fmap_last.
  destruct (last l) as [[t latest]|] eqn:Hlast; [|done].
  intros [= <- <-]. simpl. split; [done|].
  assert (l ≡ₚ keyed) as Hperm by apply sorted_Permutation.
  assert ((t, latest) ∈ keyed) as Hin.
  { rewrite <- Hperm. apply last_Some in Hlast as [l' ->].
    apply elem_of_app. right. by left. }
  change (map ?f ?l) with (f <$> l) in Hfiles.
  assert (latest ∈ path_join "downloads" <$> names) as Hlatest.
  { rewrite <- Hfiles. apply list_elem_of_fmap. by exists (t, latest). }
  apply list_elem_of_fmap in Hlatest as (f & -> & Hf).
  rewrite Forall_forall in Hall.
  exists names, f, t. repeat split; try done.
  - by apply (Hall _ Hin).
  - intros f' t' Hf' Ht'.
    assert (path_join "downloads" f' ∈ keyed.*2) as Hk.
    { rewrite Hfiles. apply list_elem_of_fmap. by exists f'. }
    apply list_elem_of_fmap in Hk as ([t'' p'] & Hp' & Hk). simpl in Hp'.
    subst p'. pose proof (Hall _ Hk) as Ht''. simpl in Ht''.
    rewrite Ht' in Ht''. injection Ht'' as ->.
    apply (last_of_ascending l (t, path_join "downloads" f)
             (stable_sort_ascending _ _ mtime_lt_irrefl mtime_lt_trans
                mtime_lt_negtrans keyed) Hlast (t'', path_join "downloads" f')).
    by rewrite Hperm.
Qed.

Lemma download_returns_newest_witness :
  let mtimes :=
    Sample.getmtime_of
      [("downloads/a.mp4", Sample.seconds 100.5 eq_refl);
       ("downloads/b.mp4", Sample.seconds 300.25 eq_refl);
       ("downloads/c.mp4", Sample.seconds 200 eq_refl)] in
  let run :=
    download Sample.makedirs_ok
      (Sample.listdir_of ["a.mp4"; "b.mp4"; "c.mp4"]) mtimes
      (Sample.abspath_in "/home/user") "python3" (Sample.ytdlp_exits 0)
      "https://example.org/v" (Sample.typed []) in
  run.1 = Return "/home/user/downloads/b.mp4"
  /\ spawned (now run.2) = [] ++ [ytdlp_cmd "python3" "https://example.org/v"].
Proof.
  intros mtimes run. split; [reflexivity|].
  apply (download_returns_newest Sample.makedirs_ok
           (Sample.listdir_of ["a.mp4"; "b.mp4"; "c.mp4"]) mtimes
           (Sample.abspath_in "/home/user") "python3" (Sample.ytdlp_exits 0)
           "https://example.org/v" (Sample.typed [])
           "/home/user/downloads/b.mp4" run.2).
  reflexivity.
Defined.

(** X16: how [download] fails.  If the directory cannot be made it raises
    [OSError] before anything is started; if yt-dlp exits with a non-zero
    status it raises [CalledProcessError] with that status and the
    directory is not looked at; if the directory is empty after a
    successful yt-dlp it raises [IndexError]. *)
Theorem download_failures
    (makedirs : string -> gmap string (list byte) ->
                option (gmap string (list byte)))
    (listdir : gmap string (list byte) -> string -> option (list string))
    (getmtime : gmap string (list byte) -> string -> option finite_float)
    (abspath : string -> string) (sys_executable : string)
    (run_ytdlp : list string -> gmap string (list byte) ->
                 spawn_result unit * gmap string (list byte))
    (url : string) (s : session) :
  let run :=
    download makedirs listdir getmtime abspath sys_executable run_ytdlp
      url s in
  let cmd := ytdlp_cmd sys_executable url in
  (makedirs "downloads" (disk (now s)) = None ->
   run = (Throw (Known OSError), s))
  /\ (forall d1 rc d2,
        makedirs "downloads" (disk (now s)) = Some d1 ->
        run_ytdlp cmd d1 = (Exited rc tt tt, d2) -> rc <> 0 ->
        run.1 = Throw (Known (CalledProcessError rc cmd))
        /\ spawned (now run.2) = spawned (now s) ++ [cmd]
        /\ disk (now run.2) = d2)
  /\ (forall d1 d2,
        makedirs "downloads" (disk (now s)) = Some d1 ->
        run_ytdlp cmd d1 = (Exited 0 tt tt, d2) ->
        listdir d2 "downloads" = Some [] ->
        run.1 = Throw IndexError).
Proof.
  intros run cmd. subst run. rewrite download_unfold. fold cmd.
  split; [|split].
  - by intros ->.
  - intros d1 rc d2 -> Hrun Hrc. rewrite Hrun. simpl.
    by rewrite bool_decide_eq_false_2.
  - intros d1 d2 -> Hrun Hnames. rewrite Hrun. simpl. by rewrite Hnames.
Qed.

Lemma download_failures_witness :
  (download Sample.makedirs_ok (Sample.listdir_of ["a.mp4"])
     (Sample.getmtime_of []) (Sample.abspath_in "/home/user") "python3"
     (Sample.ytdlp_exits 1) "https://example.org/v" (Sample.typed [])).1
  = Throw (Known (CalledProcessError 1
                    (ytdlp_cmd "python3" "https://example.org/v")))
  /\ (download Sample.makedirs_ok (Sample.listdir_of [])
        (Sample.getmtime_of []) (Sample.abspath_in "/home/user") "python3"
        (Sample.ytdlp_exits 0) "https://example.org/v" (Sample.typed [])).1
     = Throw IndexError.
Proof.
  split.
  - apply (download_failures Sample.makedirs_ok (Sample.listdir_of ["a.mp4"])
             (Sample.getmtime_of []) (Sample.abspath_in "/home/user") "python3"
             (Sample.ytdlp_exits 1) "https://example.org/v" (Sample.typed []))
      with (d1 := ∅) (d2 := ∅); [reflexivity | reflexivity | lia].
  - apply (download_failures Sample.makedirs_ok (Sample.listdir_of [])
             (Sample.getmtime_of []) (Sample.abspath_in "/home/user") "python3"
             (Sample.ytdlp_exits 0) "https://example.org/v" (Sample.typed []))
      with (d1 := ∅) (d2 := ∅); reflexivity.
Defined.

(** ** The main program *)

(** X17: the three questions.  The link is the first line typed, stripped;
    with nothing to read the script ends in [EOFError].  The count and the
    duration are the next two lines read as ints, and an answer that is
    missing or is not an int gives the default, 5 and 30. *)
Theorem read_settings_defaults
    (str_strip : string -> string) (int_of_str : string -> option Z)
    (s : session) :
  let answer (line : option string) (dflt : Z) : Z :=
    default dflt (line ≫= fun l => int_of_str (str_strip l)) in
  (stdin s = [] -> (read_settings str_strip int_of_str s).1 = Throw EOFError)
  /\ (forall link rest,
        stdin s = link :: rest ->
        (read_settings str_strip int_of_str s).1
        = Return (str_strip link,
                  answer (rest !! 0%nat) 5,
                  answer (rest !! 1%nat) 30)
        /\ stdin (read_settings str_strip int_of_str s).2 = drop 2 rest).
Proof.
  intros answer. unfold read_settings.
  unfold sbind, of_M, print, input, try_except, of_result, sret. simpl.
  split.
  - by intros ->.
  - intros link rest ->. simpl.
    destruct rest as [|a rest]; simpl.
    { done. }
    unfold answer at 1. simpl.
    destruct (int_of_str (str_strip a)) as [n|]; simpl;
      (destruct rest as [|b rest]; simpl; [done|]);
      unfold answer; simpl;
      by destruct (int_of_str (str_strip b)).
Qed.

Lemma read_settings_defaults_witness :
  (read_settings Sample.strip_id Sample.int_of_decimal
     (Sample.typed ["video.mp4"; "three"])).1
  = Return ("video.mp4", 5, 30)
  /\ (read_settings Sample.strip_id Sample.int_of_decimal
        (Sample.typed ["video.mp4"; "3"; "-20"; "more"])).1
     = Return ("video.mp4", 3, -20).
Proof.
  split.
  - apply (proj2 (read_settings_defaults Sample.strip_id Sample.int_of_decimal
                    (Sample.typed ["video.mp4"; "three"]))
             "video.mp4" ["three"]).
    reflexivity.
  - apply (proj2 (read_settings_defaults Sample.strip_id Sample.int_of_decimal
                    (Sample.typed ["video.mp4"; "3"; "-20"; "more"]))
             "video.mp4" ["3"; "-20"; "more"]).
    reflexivity.
Defined.

Lemma after_spawn_spawned {O} cmd (r : spawn_result O) d w :
  spawned (after_spawn cmd r d w) = spawned w ++ started cmd r.
Proof. destruct r; simpl; [done|]. by rewrite app_nil_r. Qed.


Section PipelineFacts.
Variable makedirs : string -> gmap string (list byte) ->
                    option (gmap string (list byte)).
Variable listdir : gmap string (list byte) -> string -> option (list string).
Variable getmtime : gmap string (list byte) -> string -> option finite_float.
Variable abspath : string -> string.
Variable sys_executable : string.
Variable run_ytdlp :
  list string -> gmap string (list byte) ->
  spawn_result unit * gmap string (list byte).
Variable timecode : Type.
Variable scene_list : string -> option (list (timecode * timecode)).
Variable get_seconds : timecode -> float.
Variable run_ffprobe : list string -> spawn_result (list byte).
Variable bytes_decode : list byte -> option string.
Variable str_strip : string -> string.
Variable float_of_str : string -> option float.
Variable run_ffmpeg :
  list string -> gmap string (list byte) ->
  spawn_result (list byte) * gmap string (list byte).
Variable text_decode : list byte -> option string.

Abbreviation pipeline :=
  (run_pipeline makedirs listdir getmtime abspath sys_executable run_ytdlp
     timecode scene_list get_seconds run_ffprobe bytes_decode str_strip
     float_of_str run_ffmpeg text_decode).
Abbreviation fetch :=
  (download makedirs listdir getmtime abspath sys_executable run_ytdlp).

Lemma render_chosen_unfold `{Seconds T} video n short_dur
    (scenes : list (T * T)) s :
  render_chosen abspath run_ffmpeg text_decode video n short_dur scenes s
  = let (r, w) :=
      main_loop run_ffmpeg text_decode abspath video short_dur
        (pick_top_scenes scenes n) (now s) in
    match r with
    | Ok _ =>
        (Return tt,
         {| stdin := stdin s; prompts := prompts s;
            now := {| printed :=
                        printed w
                        ++ [newline
                            +:+ "DONE! Your shorts are inside the 'shorts' folder."];
                      spawned := spawned w;
                      disk := disk w |} |})
    | Raise e =>
        (Throw (Known e), {| stdin := stdin s; prompts := prompts s; now := w |})
    end.
Proof.
  unfold render_chosen, sbind, of_M. simpl.
  destruct (main_loop _ _ _ _ _ _ _) as [[[]|e] w]; simpl; [|done].
  by unfold print_text.
Qed.

(** The pipeline after the video has been found. *)
Lemma pipeline_unfold url n short_dur s :
  pipeline url n short_dur s
  = match makedirs "shorts" (disk (now s)) with
    | None => (Throw (Known OSError), s)
    | Some d1 =>
        let s1 :=
          {| stdin := stdin s; prompts := prompts s;
             now := {| printed := printed (now s);
                       spawned := spawned (now s);
                       disk := d1 |} |} in
        match (if String.prefix "http" url then fetch url s1
               else (Return url, s1)) with
        | (Throw e, s2) => (Throw e, s2)
        | (Return video, s2) =>
            let s3 :=
              {| stdin := stdin s2; prompts := prompts s2;
                 now := {| printed :=
                             printed (now s2)
                             ++ [print_text [newline +:+ "Video downloaded at:";
                                             video];
                                 "Detecting scenes..."];
                           spawned := spawned (now s2);
                           disk := disk (now s2) |} |} in
            match scene_list video with
            | None => (Throw DetectorError, s3)
            | Some tcs =>
                match map (fun tc => (get_seconds tc.1, get_seconds tc.2)) tcs
                with
                | [] =>
                    let s4 :=
                      {| stdin := stdin s3; prompts := prompts s3;
                         now :=
                           after_spawn (ffprobe_cmd video)
                             (run_ffprobe (ffprobe_cmd video))
                             (disk (now s3))
                             {| printed :=
                                  printed (now s3)
                                  ++ ["No scenes detected. Using sequential fallback."];
                                spawned := spawned (now s3);
                                disk := disk (now s3) |} |} in
                    match make_sequential_scenes run_ffprobe bytes_decode
                            str_strip float_of_str video n short_dur with
                    | Ok scenes =>
                        render_chosen abspath run_ffmpeg text_decode video n
                          short_dur scenes s4
                    | Raise e => (Throw (Known e), s4)
                    end
                | scenes =>
                    render_chosen abspath run_ffmpeg text_decode video n
                      short_dur scenes s3
                end
            end
        end
    end.
Proof.
  unfold run_pipeline. unfold sbind at 1. unfold os_makedirs.
  destruct (makedirs "shorts" (disk (now s))) as [d1|]; [|done].
  cbv zeta. unfold sbind at 1.
  set (s1 := {| stdin := stdin s |}).
  assert ((if String.prefix "http" url then fetch url else sret url) s1
          = (if String.prefix "http" url then fetch url s1
             else (Return url, s1))) as -> by by destruct (String.prefix _ _).
  destruct (if String.prefix "http" url then fetch url s1
            else (Return url, s1)) as [[video|e] s2]; [|done].
  unfold sbind at 1. unfold of_M at 1, print at 1. cbv beta iota zeta.
  unfold sbind at 1. unfold detect_scenes, sbind at 1.
  unfold of_M at 1, print at 1. simpl.
  rewrite <- app_assoc. simpl.
  destruct (scene_list video) as [tcs|]; [|done]. unfold sret at 1.
  destruct (map _ tcs) as [|sc scenes]; [|done].
  unfold sbind at 1, of_M at 1, print at 1. cbv beta iota zeta.
  unfold sbind at 1, of_result. cbn [now stdin prompts printed spawned disk].
  by destruct (make_sequential_scenes _ _ _ _ _ _ _).
Qed.
End PipelineFacts.

Section PipelineProperties.
Variable makedirs : string -> gmap string (list byte) ->
                    option (gmap string (list byte)).
Variable listdir : gmap string (list byte) -> string -> option (list string).
Variable getmtime : gmap string (list byte) -> string -> option finite_float.
Variable abspath : string -> string.
Variable sys_executable : string.
Variable run_ytdlp :
  list string -> gmap string (list byte) ->
  spawn_result unit * gmap string (list byte).
Variable run_ffmpeg :
  list string -> gmap string (list byte) ->
  spawn_result (list byte) * gmap string (list byte).
Variable text_decode : list byte -> option string.


Lemma render_chosen_spawned `{Seconds T} video n short_dur
    (scenes : list (T * T)) s r s' :
  render_chosen abspath run_ffmpeg text_decode video n short_dur scenes s
  = (r, s') ->
  exists r0 w,
    main_loop run_ffmpeg text_decode abspath video short_dur
      (pick_top_scenes scenes n) (now s) = (r0, w)
    /\ spawned (now s') = spawned w
    /\ (r = Return tt <-> r0 = Ok tt).
Proof.
  rewrite render_chosen_unfold.
  destruct (main_loop _ _ _ _ _ _ _) as [[[]|e] w]; intros [= <- <-];
    eexists _, _; (split; [done|]); split; done.
Qed.
End PipelineProperties.

(** X18: with a local path (one that does not start with [http]) on which
    the detector finds scenes, the pipeline consults neither yt-dlp and the
    [downloads] directory nor ffprobe: run with any other downloader and any
    other probe, it does the same. *)
Theorem run_pipeline_local_detected
    (makedirs : string -> gmap string (list byte) ->
                option (gmap string (list byte)))
    (listdir listdir' :
       gmap string (list byte) -> string -> option (list string))
    (getmtime getmtime' :
       gmap string (list byte) -> string -> option finite_float)
    (abspath : string -> string) (sys_executable sys_executable' : string)
    (run_ytdlp run_ytdlp' :
       list string -> gmap string (list byte) ->
       spawn_result unit * gmap string (list byte))
    (timecode : Type)
    (scene_list : string -> option (list (timecode * timecode)))
    (get_seconds : timecode -> float)
    (run_ffprobe run_ffprobe' : list string -> spawn_result (list byte))
    (bytes_decode bytes_decode' : list byte -> option string)
    (str_strip str_strip' : string -> string)
    (float_of_str float_of_str' : string -> option float)
    (run_ffmpeg : list string -> gmap string (list byte) ->
                  spawn_result (list byte) * gmap string (list byte))
    (text_decode : list byte -> option string)
    (url : string) (n_shorts short_dur : Z) (s : session)
    (tcs : list (timecode * timecode)) :
  String.prefix "http" url = false ->
  scene_list url = Some tcs ->
  tcs <> [] ->
  run_pipeline makedirs listdir getmtime abspath sys_executable run_ytdlp
    timecode scene_list get_seconds run_ffprobe bytes_decode str_strip
    float_of_str run_ffmpeg text_decode url n_shorts short_dur s
  = run_pipeline makedirs listdir' getmtime' abspath sys_executable' run_ytdlp'
      timecode scene_list get_seconds run_ffprobe' bytes_decode' str_strip'
      float_of_str' run_ffmpeg text_decode url n_shorts short_dur s.
Proof.
  intros Hlocal Hscenes Hne. rewrite !pipeline_unfold, Hlocal.
  destruct (makedirs "shorts" (disk (now s))) as [d1|]; [|done].
  cbv zeta. rewrite Hscenes. by destruct tcs.
Qed.

Lemma run_pipeline_local_detected_witness :
  let found := Sample.scenes_found [(0, 10.5); (10.5, 15); (15, 45.25)]%float in
  run_pipeline Sample.makedirs_ok (Sample.listdir_of []) (Sample.getmtime_of [])
    (Sample.abspath_in "/home/user") "python3" (Sample.ytdlp_exits 0)
    float found (fun t => t) Sample.ffprobe_ok Sample.decode_ascii
    Sample.strip_id (Sample.float_always 90.5) Sample.ffmpeg_ok
    Sample.decode_7bit "video.mp4" 2 30 (Sample.typed [])
  = run_pipeline Sample.makedirs_ok (Sample.listdir_of ["x.mp4"])
      (Sample.getmtime_of []) (Sample.abspath_in "/home/user") "python"
      (Sample.ytdlp_exits 1) float found (fun t => t) Sample.ffprobe_missing
      Sample.decode_ascii Sample.strip_id Sample.float_never Sample.ffmpeg_ok
      Sample.decode_7bit "video.mp4" 2 30 (Sample.typed []).
Proof.
  intros found.
  apply (run_pipeline_local_detected Sample.makedirs_ok
           (Sample.listdir_of []) (Sample.listdir_of ["x.mp4"])
           (Sample.getmtime_of []) (Sample.getmtime_of [])
           (Sample.abspath_in "/home/user") "python3" "python"
           (Sample.ytdlp_exits 0) (Sample.ytdlp_exits 1)
           float found (fun t => t) Sample.ffprobe_ok Sample.ffprobe_missing
           Sample.decode_ascii Sample.decode_ascii
           Sample.strip_id Sample.strip_id
           (Sample.float_always 90.5) Sample.float_never Sample.ffmpeg_ok
           Sample.decode_7bit "video.mp4" 2 30 (Sample.typed [])
           [(0, 10.5); (10.5, 15); (15, 45.25)]%float);
    [vm_compute; reflexivity | vm_compute; reflexivity | discriminate].
Defined.



Example run_pipeline_sample :
  let run :=
    run_pipeline Sample.makedirs_ok (Sample.listdir_of ["a.mp4"])
      (Sample.getmtime_of [("downloads/a.mp4", Sample.seconds 100.5 eq_refl)])
      (Sample.abspath_in "/home/user") "python3" (Sample.ytdlp_exits 0)
      float (Sample.scenes_found [(0, 10.5); (10.5, 15); (15, 45.25)]%float)
      (fun t => t) Sample.ffprobe_ok Sample.decode_ascii
      Sample.strip_id (Sample.float_always 90.5) Sample.ffmpeg_ok
      Sample.decode_7bit "https://example.org/v" 2 30 (Sample.typed []) in
  run.1 = Return tt
  /\ spawned (now run.2)
     = [["python3"; "-m"; "yt_dlp"; "-f"; "bestvideo+bestaudio/best";
         "--merge-output-format"; "mp4"; "-o"; "downloads/%(title)s.%(ext)s";
         "https://example.org/v"];
        ffmpeg_cmd "/home/user/downloads/a.mp4" "15" "30"
          "/home/user/shorts/short_01.mp4";
        ffmpeg_cmd "/home/user/downloads/a.mp4" "0" "30"
          "/home/user/shorts/short_02.mp4"].
Proof. vm_compute. split; reflexivity. Qed.

(** X20: the whole fallback path.  On a local video in which the detector
    finds nothing, once the [shorts] directory is there, the processes that
    the pipeline starts are ffprobe, if it can be started, and after it the
    encoders of the sequential clips, in order: the command line of the
    [i]-th (from 0) begins [ffmpeg -ss (i * short_dur) -i video -t short_dur]
    and ends in the path of short number [i + 1].  A pipeline that returns
    normally has started exactly [n_shorts] encoders. *)
Theorem run_pipeline_fallback_jobs
    (makedirs : string -> gmap string (list byte) ->
                option (gmap string (list byte)))
    (listdir : gmap string (list byte) -> string -> option (list string))
    (getmtime : gmap string (list byte) -> string -> option finite_float)
    (abspath : string -> string) (sys_executable : string)
    (run_ytdlp : list string -> gmap string (list byte) ->
                 spawn_result unit * gmap string (list byte))
    (timecode : Type)
    (scene_list : string -> option (list (timecode * timecode)))
    (get_seconds : timecode -> float)
    (run_ffprobe : list string -> spawn_result (list byte))
    (bytes_decode : list byte -> option string)
    (str_strip : string -> string)
    (float_of_str : string -> option float)
    (run_ffmpeg : list string -> gmap string (list byte) ->
                  spawn_result (list byte) * gmap string (list byte))
    (text_decode : list byte -> option string)
    (url : string) (n_shorts short_dur : Z)
    (s : session) (r : outcome unit) (s' : session) :
  String.prefix "http" url = false ->
  is_Some (makedirs "shorts" (disk (now s))) ->
  scene_list url = Some [] ->
  0 <= n_shorts -> 0 <= short_dur ->
  run_pipeline makedirs listdir getmtime abspath sys_executable run_ytdlp
    timecode scene_list get_seconds run_ffprobe bytes_decode str_strip
    float_of_str run_ffmpeg text_decode url n_shorts short_dur s = (r, s') ->
  exists cmds,
    spawned (now s')
    = spawned (now s)
      ++ started (ffprobe_cmd url) (run_ffprobe (ffprobe_cmd url)) ++ cmds
    /\ (r = Return tt -> Z.of_nat (length cmds) = n_shorts)
    /\ forall i cmd,
         cmds !! i = Some cmd ->
         take 7 cmd
         = ["ffmpeg"; "-ss"; str_of_int (Z.of_nat i * short_dur);
            "-i"; abspath url; "-t"; str_of_int short_dur]
         /\ last cmd = Some (abspath (abspath (short_path i))).
Proof.
  intros Hlocal [d1 Hd1] Hscenes Hn Hd. rewrite pipeline_unfold, Hlocal, Hd1.
  cbv zeta. rewrite Hscenes. simpl map. cbv iota.
  set (s4 := {| stdin := _; prompts := _; now := after_spawn _ _ _ _ |}).
  assert (spawned (now s4)
          = spawned (now s)
            ++ started (ffprobe_cmd url) (run_ffprobe (ffprobe_cmd url)))
    as Hs4 by (unfold s4; cbn [now]; by rewrite after_spawn_spawned).
  destruct (make_sequential_scenes _ _ _ _ _ _ _) as [fb|e] eqn:Hfb.
  2:{ intros [= <- <-]. exists []. by rewrite app_nil_r. }
  intros Hrun.
  apply render_chosen_spawned in Hrun as (r0 & w & Hloop & -> & Hr).
  apply fallback_shape in Hfb as [total ->].
  destruct (fallback_jobs _ _ _ _ _ _ _ _ _ _ Hn Hd Hloop)
    as (cmds & Hspawned & Hlen & Hjobs).
  exists cmds. split; [by rewrite Hspawned, Hs4, <- app_assoc|]. split.
  - intros Hret. by apply Hlen, Hr.
  - intros i cmd Hcmd. by rewrite (Hjobs i cmd Hcmd).
Qed.

Lemma run_pipeline_fallback_jobs_witness :
  let abs := Sample.abspath_in "/home/user" in
  let run :=
    run_pipeline Sample.makedirs_ok (Sample.listdir_of []) (Sample.getmtime_of [])
      abs "python3" (Sample.ytdlp_exits 0)
      float (Sample.scenes_found []) (fun t => t)
      Sample.ffprobe_ok Sample.decode_ascii Sample.strip_id
      (Sample.float_always 70.5) Sample.ffmpeg_ok Sample.decode_7bit
      "video.mp4" 3 30 (Sample.typed []) in
  (exists cmds,
     spawned (now run.2)
     = spawned (now (Sample.typed []))
       ++ started (ffprobe_cmd "video.mp4")
            (Sample.ffprobe_ok (ffprobe_cmd "video.mp4"))
       ++ cmds
     /\ (run.1 = Return tt -> Z.of_nat (length cmds) = 3)
     /\ forall i cmd,
          cmds !! i = Some cmd ->
          take 7 cmd
          = ["ffmpeg"; "-ss"; str_of_int (Z.of_nat i * 30);
             "-i"; abs "video.mp4"; "-t"; str_of_int 30]
          /\ last cmd = Some (abs (abs (short_path i))))
  /\ run.1 = Return tt
  /\ take 7 <$> spawned (now run.2)
     = [["ffprobe"; "-v"; "error"; "-select_streams"; "v:0";
         "-show_entries"; "format=duration"];
        ["ffmpeg"; "-ss"; "0"; "-i"; "/home/user/video.mp4"; "-t"; "30"];
        ["ffmpeg"; "-ss"; "30"; "-i"; "/home/user/video.mp4"; "-t"; "30"];
        ["ffmpeg"; "-ss"; "60"; "-i"; "/home/user/video.mp4"; "-t"; "30"]]
  /\ last <$> spawned (now run.2)
     = [Some "video.mp4";
        Some "/home/user/shorts/short_01.mp4";
        Some "/home/user/shorts/short_02.mp4";
        Some "/home/user/shorts/short_03.mp4"].
Proof.
  intros abs run. split.
  - apply (run_pipeline_fallback_jobs Sample.makedirs_ok (Sample.listdir_of [])
             (Sample.getmtime_of []) abs "python3" (Sample.ytdlp_exits 0)
             float (Sample.scenes_found []) (fun t => t)
             Sample.ffprobe_ok Sample.decode_ascii Sample.strip_id
             (Sample.float_always 70.5) Sample.ffmpeg_ok Sample.decode_7bit
             "video.mp4" 3 30 (Sample.typed []) run.1 run.2);
      [vm_compute; reflexivity | by eexists | vm_compute; reflexivity
      | lia | lia | apply surjective_pairing].
  - repeat split; vm_compute; reflexivity.
Defined.

(** ffprobe cannot be started: the probe gives 0.0, every sequential clip
    ends at 0, and the encoders are the only processes. *)
Example run_pipeline_fallback_without_ffprobe :
  let run :=
    run_pipeline Sample.makedirs_ok (Sample.listdir_of []) (Sample.getmtime_of [])
      (Sample.abspath_in "/home/user") "python3" (Sample.ytdlp_exits 0)
      float (Sample.scenes_found []) (fun t => t)
      Sample.ffprobe_missing Sample.decode_ascii Sample.strip_id
      Sample.float_never Sample.ffmpeg_ok Sample.decode_7bit
      "video.mp4" 2 30 (Sample.typed []) in
  run.1 = Return tt
  /\ take 3 <$> spawned (now run.2)
     = [["ffmpeg"; "-ss"; "0"]; ["ffmpeg"; "-ss"; "30"]].
Proof. vm_compute. split; reflexivity. Qed.

Example int_of_decimal_samples :
  Sample.int_of_decimal "" = None
  /\ Sample.int_of_decimal "-" = None
  /\ Sample.int_of_decimal "+5" = Some 5
  /\ Sample.int_of_decimal "-20" = Some (-20)
  /\ Sample.int_of_decimal "1_000" = Some 1000
  /\ Sample.int_of_decimal "1__0" = None
  /\ Sample.int_of_decimal "_1" = None
  /\ Sample.int_of_decimal "1_" = None
  /\ Sample.int_of_decimal "three" = None.
Proof. repeat split; reflexivity. Qed.
